(** * The pusher's websocket controller (IoSocketController)

    A shallow embedding of the two websocket endpoints registered by
    [IoSocketController]: the privileged [/admin/rooms] socket and the
    primary [/room] socket (handlers [upgrade], [open] and [close]).

    Handlers are modelled as functions from their inputs (the request, the
    answers of the external collaborators, what the event loop did while the
    handler was suspended) to the ordered list of observable calls they make
    ([res.upgrade], [ws.send], [ws.end], calls into [socketManager],
    telemetry).  Control flow ([throw], [return] inside [try], [catch],
    [finally]) is written with completion records, as ECMAScript defines
    it. *)

From Stdlib Require Import String Ascii List Bool ZArith Lia.
Import ListNotations.
Local Open Scope string_scope.
Local Open Scope list_scope.

(** ** JavaScript values used by the controller *)

Module Js.

(** [!!s] for a string. *)
Definition truthy (s : string) : bool := negb (String.eqb s "").

(** [!!v] for [string | undefined | null]. *)
Definition truthyOpt (v : option string) : bool :=
  match v with
  | Some s => truthy s
  | None => false
  end.

(** [!!n] for a number (NaN is not modelled). *)
Definition truthyNum (n : Z) : bool := negb (Z.eqb n 0).

(** [a || b] on numbers, [a] possibly undefined. *)
Definition orNum (a : option Z) (b : Z) : Z :=
  match a with
  | Some n => if truthyNum n then n else b
  | None => b
  end.

(** [v ?? d]. *)
Definition nullish {A : Type} (v : option A) (d : A) : A :=
  match v with
  | Some a => a
  | None => d
  end.

(** [xs.includes(x)] on an array of strings. *)
Definition includes (xs : list string) (x : string) : bool :=
  existsb (String.eqb x) xs.

(** [s.split(sep)] for a one-character separator. *)
Fixpoint split (sep : ascii) (s : string) : list string :=
  match s with
  | EmptyString => [EmptyString]
  | String c rest =>
      if Ascii.eqb c sep then EmptyString :: split sep rest
      else match split sep rest with
           | [] => [String c EmptyString]
           | w :: ws => String c w :: ws
           end
  end.

End Js.


(** A flat JSON object, as the admin API's error payloads are. *)
Inductive JsonScalar :=
| JString (s : string)
| JBool (b : bool)
| JNumber (n : Z).

Definition JsonObject := list (string * JsonScalar).

(** [o.key] on a JSON object; [None] is [undefined]. *)
Fixpoint field (o : JsonObject) (key : string) : option JsonScalar :=
  match o with
  | [] => None
  | (k, v) :: rest => if String.eqb k key then Some v else field rest key
  end.

(** ** Thrown values *)

(** The answer of the admin API that an axios error carries. *)
Record AxiosResponse := {
  status : Z;
  data : option string
}.

(** What a [catch] clause of the controller can receive.  The first three
    are instances of [Error]. *)
Inductive Exception :=
| JsonWebTokenError (message : string)
| AxiosError (message : string) (response : option AxiosResponse)
| Error (message : string)
| NotAnError (value : string).

Definition instanceofError (e : Exception) : bool :=
  match e with
  | NotAnError _ => false
  | _ => true
  end.

Definition instanceofJsonWebTokenError (e : Exception) : bool :=
  match e with
  | JsonWebTokenError _ => true
  | _ => false
  end.

Definition isAxiosError (e : Exception) : bool :=
  match e with
  | AxiosError _ _ => true
  | _ => false
  end.

Definition messageOf (e : Exception) : string :=
  match e with
  | JsonWebTokenError m | AxiosError m _ | Error m => m
  | NotAnError v => v
  end.

(** [e.name], for the instances of [Error]. *)
Definition nameOf (e : Exception) : string :=
  match e with
  | JsonWebTokenError _ => "JsonWebTokenError"
  | AxiosError _ _ => "AxiosError"
  | Error _ | NotAnError _ => "Error"
  end.

(** What a template literal makes of a caught value, [String(e)]: for an
    [Error] it is [Error.prototype.toString], the name, then the message
    after a colon unless it is empty; any other thrown value is held by
    [NotAnError] in its string form. *)
Definition toString (e : Exception) : string :=
  match e with
  | NotAnError v => v
  | _ => if String.eqb (messageOf e) "" then nameOf e
         else nameOf e ++ ": " ++ messageOf e
  end.

(** [err?.response?.status] and [err?.response?.data]. *)
Definition responseStatus (e : Exception) : option Z :=
  match e with
  | AxiosError _ (Some r) => Some (status r)
  | _ => None
  end.

Definition responseBody (e : Exception) : option string :=
  match e with
  | AxiosError _ (Some r) => data r
  | _ => None
  end.

(** What is handed to [Sentry.captureException], [console.error] or
    [console.log]. *)
Inductive Report :=
| Text (s : string)
| Caught (e : Exception)
| AxiosFailure (st : option Z) (payload : JsonObject)
| UnknownFailure (e : Exception).

(** ** Handlers: state, ordered calls and completion records *)

Module Handler.
Section WithStateAndEvents.

Context {St Ev : Type}.

(** How a block of statements ends: it falls through with a value, it
    executes [return], or it throws. *)
Inductive completion (A : Type) :=
| Normal (a : A)
| Returned
| Thrown (e : Exception).
Arguments Normal {A} a.
Arguments Returned {A}.
Arguments Thrown {A} e.

(** What running a block leaves behind: the calls it made, in order, the
    mutable state, and its completion. *)
Record outcome (A : Type) := Outcome {
  calls : list Ev;
  final : St;
  how : completion A
}.
Arguments Outcome {A} calls final how.
Arguments calls {A} o.
Arguments final {A} o.
Arguments how {A} o.

Definition M (A : Type) : Type := St -> outcome A.

Definition ret {A} (a : A) : M A := fun s => Outcome [] s (Normal a).

Definition bind {A B} (m : M A) (k : A -> M B) : M B :=
  fun s =>
    match m s with
    | Outcome t s' (Normal a) =>
        match k a s' with
        | Outcome t' s'' c => Outcome (t ++ t') s'' c
        end
    | Outcome t s' Returned => Outcome t s' Returned
    | Outcome t s' (Thrown e) => Outcome t s' (Thrown e)
    end.

Definition emit (ev : Ev) : M unit := fun s => Outcome [ev] s (Normal tt).
Definition throw {A} (e : Exception) : M A := fun s => Outcome [] s (Thrown e).
Definition exit {A} : M A := fun s => Outcome [] s Returned.
Definition get : M St := fun s => Outcome [] s (Normal s).
Definition put (s' : St) : M unit := fun _ => Outcome [] s' (Normal tt).

(** The result of a call that either returns or throws. *)
Definition call {A} (r : Exception + A) : M A :=
  match r with
  | inl e => throw e
  | inr a => ret a
  end.

(** [try { m } catch (e) { h e }]. *)
Definition tryCatch {A} (m : M A) (h : Exception -> M A) : M A :=
  fun s =>
    match m s with
    | Outcome t s' (Thrown e) =>
        match h e s' with
        | Outcome t' s'' c => Outcome (t ++ t') s'' c
        end
    | other => other
    end.

(** [try { m } finally { f }]: an abrupt completion of [f] replaces the
    completion of [m]. *)
Definition tryFinally {A} (m : M A) (f : M unit) : M A :=
  fun s =>
    match m s with
    | Outcome t s' c =>
        match f s' with
        | Outcome t' s'' (Normal _) => Outcome (t ++ t') s'' c
        | Outcome t' s'' Returned => Outcome (t ++ t') s'' Returned
        | Outcome t' s'' (Thrown e) => Outcome (t ++ t') s'' (Thrown e)
        end
    end.

(** [if (b) { m }]. *)
Definition when (b : bool) (m : M unit) : M unit :=
  if b then m else ret tt.

(** [for (const x of xs) { body x }] and [xs.forEach(body)]. *)
Fixpoint forOf {A} (xs : list A) (body : A -> M unit) : M unit :=
  match xs with
  | [] => ret tt
  | x :: rest => bind (body x) (fun _ => forOf rest body)
  end.

End WithStateAndEvents.

Arguments Normal {A} a.
Arguments Returned {A}.
Arguments Thrown {A} e.
Arguments Outcome {St Ev A} calls final how.
Arguments calls {St Ev A} o.
Arguments final {St Ev A} o.
Arguments how {St Ev A} o.
Arguments M St Ev A : clear implicits.

Module Notations.
Declare Scope handler_scope.
Delimit Scope handler_scope with handler.
Notation "x <- m ;; k" := (bind m (fun x => k))
  (at level 61, m at next level, right associativity) : handler_scope.
Notation "m ;; k" := (bind m (fun _ => k))
  (at level 61, right associativity) : handler_scope.
End Notations.

End Handler.

Import Handler.Notations.

(** ** The [/admin/rooms] socket *)

Module Admin.

Import Handler.

(** The payload of a ["user-message"] frame. *)
Record UserMessage := {
  type : string;
  userUuid : string;
  message : string
}.

(** A frame accepted by [isAdminMessageInterface]. *)
Inductive AdminMessageInterface :=
| Listen (jwt : string) (roomIds : list string)
| UserMessageEvent (jwt : string) (world : string) (messageToEmit : UserMessage).

Definition jwtOf (m : AdminMessageInterface) : string :=
  match m with
  | Listen j _ | UserMessageEvent j _ _ => j
  end.

(** An incoming text frame, after [JSON.parse] and
    [isAdminMessageInterface.parse]. Of a JSON value [message] that is no
    admin message the handler uses the issues of the schema, what the
    template literal makes of [message] (its text, or the [TypeError] thrown
    for a value without primitive form, such as an object whose [toString] is
    a number), and what [console.error] prints of it. *)
Inductive Frame :=
| NotJson (err : Exception)
| Malformed (issues : string) (rendered : Exception + string) (inspected : string)
| WellFormed (m : AdminMessageInterface).

Record AdminSocketTokenData := {
  authorizedRoomIds : list string
}.

(** The collaborators of the admin socket. *)
Record Externals := {
  verifyAdminSocketToken : string -> Exception + AdminSocketTokenData;
  JSON_stringify : list string -> string
}.

Inductive Event :=
| SentryCapture (what : Report)
| ConsoleError (what : Report)
| WsSendError (errorText : string)
| WsEnd (code : Z) (reason : string)
| HandleAdminRoom (roomId : string)
| EmitBan (userUuid message type roomId : string)
| EmitSendUserMessage (userUuid message type roomId : string).

(** The admin socket keeps no state of its own between two statements of
    the [message] handler. *)
Definition H := M unit Event.

Definition refusalText (ext : Externals) (remoteAddress : string)
           (notAuthorizedRoom : list string) : string :=
  "Admin socket refused for client on " ++ remoteAddress
    ++ " listening of : " ++ String "010"%char EmptyString
    ++ JSON_stringify ext notAuthorizedRoom.

(** The body of the ["listen"] branch (lines 179-207 of the controller). *)
Definition listen (ext : Externals) (remoteAddress : string)
           (authorized roomIds : list string) : H unit :=
  (let notAuthorizedRoom :=
     filter (fun roomId => negb (Js.includes authorized roomId)) roomIds in
   when (0 <? length notAuthorizedRoom)%nat
     (let errorMessage := refusalText ext remoteAddress notAuthorizedRoom in
      emit (SentryCapture (Text errorMessage)) ;;
      emit (ConsoleError (Text errorMessage)) ;;
      emit (WsSendError errorMessage) ;;
      emit (WsEnd 1008 "Access refused") ;;
      exit) ;;
   forOf roomIds (fun roomId => emit (HandleAdminRoom roomId)))%handler.

(** The body of the ["user-message"] branch (lines 208-237). *)
Definition userMessage (authorized : list string) (world : string)
           (messageToEmit : UserMessage) : H unit :=
  (let roomIds :=
     filter (fun authorizeRoomId =>
               match nth_error (Js.split "/"%char authorizeRoomId) 5 with
               | Some w => String.eqb w world
               | None => false
               end) authorized in
   forOf roomIds (fun roomId =>
     if String.eqb (type messageToEmit) "banned" then
       emit (EmitBan (userUuid messageToEmit) (message messageToEmit)
                     (type messageToEmit) roomId)
     else if String.eqb (type messageToEmit) "ban" then
       emit (EmitSendUserMessage (userUuid messageToEmit) (message messageToEmit)
                                 (type messageToEmit) roomId)
     else ret tt))%handler.

(** The [message] handler of [adminRoomSocket] (lines 129-242). *)
Definition onMessage (ext : Externals) (remoteAddress : string)
           (frame : Frame) : H unit :=
  tryCatch
    (match frame with
     | NotJson err => throw err
     | Malformed issues rendered inspected =>
         emit (ConsoleError (Text issues)) ;;
         emit (SentryCapture (Text issues)) ;;
         text <- call rendered ;;
         emit (SentryCapture (Text ("Invalid message received. " ++ text))) ;;
         emit (ConsoleError (Text ("Invalid message received. " ++ inspected))) ;;
         emit (WsSendError "Invalid message received! The connection has been closed.") ;;
         emit (WsEnd 1007 "Invalid message received!") ;;
         exit
     | WellFormed m =>
         let token := jwtOf m in
         data <- tryCatch (call (verifyAdminSocketToken ext token))
                  (fun e =>
                     emit (SentryCapture
                             (Text ("Admin socket access refused for token: " ++ token
                                      ++ " " ++ toString e))) ;;
                     emit (ConsoleError
                             (Text ("Admin socket access refused for token: " ++ token))) ;;
                     emit (WsSendError
                             "Admin socket access refused! The connection has been closed.") ;;
                     emit (WsEnd 1008 "Access refused") ;;
                     exit) ;;
         match m with
         | Listen _ roomIds =>
             listen ext remoteAddress (authorizedRoomIds data) roomIds
         | UserMessageEvent _ world messageToEmit =>
             userMessage (authorizedRoomIds data) world messageToEmit
         end
     end)%handler
    (fun err =>
       emit (SentryCapture (Caught err)) ;;
       emit (ConsoleError (Caught err)))%handler.

(** The calls made by the [message] handler on one frame. *)
Definition run (ext : Externals) (remoteAddress : string) (frame : Frame)
  : list Event :=
  calls (onMessage ext remoteAddress frame tt).

(** The rooms for which [socketManager.handleAdminRoom] was invoked, in
    order. *)
Definition handledRooms (t : list Event) : list string :=
  flat_map (fun ev => match ev with HandleAdminRoom r => [r] | _ => [] end) t.

End Admin.

(** ** The [/room] socket: data *)

Module Room.

Import Handler.

(** Values the controller only copies from one record to another. *)
Definition Opaque := string.

(** The environment ([EnvironmentVariable]) and the constants compiled into
    the server.  [tokenInvalidException] is the reason tag of
    [JWTTokenManager]; the type of [UpgradeFailedInvalidData] leaves it three
    possible values. *)
Inductive InvalidTag := tokenInvalid | invalidVersion.

Record Config := {
  apiVersionHash : string;
  DISABLE_ANONYMOUS : bool;
  EJABBERD_DOMAIN : string;
  EJABBERD_JWT_SECRET : option string;
  tokenInvalidException : option InvalidTag
}.

Definition ErrorApiData := JsonObject.

Record WokaDetail := { wokaId : string; wokaUrl : string }.
Record CompanionDetail := { companionId : string; companionUrl : string }.

(** The query of the upgrade request, as the schema given to
    [validateWebsocketQuery] types it. *)
Module Query.
Record t := {
  roomId : string;
  token : option string;
  name : string;
  characterTextureIds : string + list string;
  x : Z;
  y : Z;
  top : Z;
  bottom : Z;
  left : Z;
  right : Z;
  companionTextureId : option string;
  availabilityStatus : Z;
  lastCommandId : option string;
  version : string
}.
End Query.

(** The five headers the upgrade reads. *)
Record Headers := {
  websocketKey : string;
  websocketProtocol : string;
  websocketExtensions : string;
  IPAddress : string;
  locale : string
}.

Module TokenData.
Record t := {
  identifier : string;
  accessToken : option string
}.
End TokenData.

(** [FetchMemberDataByUuidResponse]. *)
Module MemberData.
Record t := {
  email : string;
  userUuid : string;
  tags : list string;
  visitCardUrl : option string;
  characterTextures : list WokaDetail;
  companionTexture : option CompanionDetail;
  messages : list Opaque;
  anonymous : option bool;
  userRoomToken : option string;
  jabberId : option string;
  jabberPassword : option string;
  mucRooms : option (list Opaque);
  activatedInviteUser : option bool;
  canEdit : option bool;
  applications : option (list Opaque)
}.
End MemberData.

(** The arguments of [adminService.fetchMemberDataByUuid]. *)
Module Lookup.
Record t := {
  userIdentifier : string;
  accessToken : option string;
  roomId : string;
  IPAddress : string;
  characterTextureIds : list string;
  companionTextureId : option string;
  locale : string
}.
End Lookup.

Module SpaceUser.
Record t := {
  id : Z;
  uuid : string;
  name : string;
  playUri : string;
  roomName : string;
  availabilityStatus : Z;
  isLogged : bool;
  color : string;
  tags : list string;
  cameraState : bool;
  screenSharing : bool;
  microphoneState : bool;
  megaphoneState : bool;
  characterTextures : list (string * string);
  visitCardUrl : option string
}.
End SpaceUser.

Record PointInterface := {
  pointX : Z;
  pointY : Z;
  direction : string;
  moving : bool
}.

Record Viewport := {
  viewTop : Z;
  viewRight : Z;
  viewBottom : Z;
  viewLeft : Z
}.

(** The session seed handed to [res.upgrade] when the upgrade is accepted. *)
Module UpgradeData.
Record t := {
  token : string;
  userUuid : string;
  userJid : option string;
  IPAddress : string;
  userIdentifier : string;
  roomId : string;
  name : string;
  companionTexture : option CompanionDetail;
  availabilityStatus : Z;
  lastCommandId : option string;
  characterTextures : list WokaDetail;
  tags : list string;
  visitCardUrl : option string;
  userRoomToken : option string;
  jabberId : option string;
  jabberPassword : option string;
  mucRooms : option (list Opaque);
  activatedInviteUser : option bool;
  canEdit : bool;
  applications : option (list Opaque);
  position : PointInterface;
  viewport : Viewport;
  isLogged : bool;
  messages : list Opaque;
  spaceUser : SpaceUser.t
}.
End UpgradeData.

Inductive EntityType := character | companion.

(** [UpgradeFailedData]: the three shapes of a rejection. *)
Inductive UpgradeFailedData :=
| UpgradeFailedInvalidData (reason : option InvalidTag) (message : option string)
                           (status : Z) (roomId : string)
| UpgradeFailedErrorData (status : Z) (error : ErrorApiData)
| UpgradeFailedInvalidTexture (entityType : EntityType).

(** The values of the [reason] field over the three shapes; [None] is
    [null]. *)
Inductive Reason :=
| ReasonTokenInvalid
| ReasonInvalidVersion
| ReasonError
| ReasonInvalidTexture.

Definition tagReason (t : InvalidTag) : Reason :=
  match t with
  | tokenInvalid => ReasonTokenInvalid
  | invalidVersion => ReasonInvalidVersion
  end.

Definition reasonOf (d : UpgradeFailedData) : option Reason :=
  match d with
  | UpgradeFailedInvalidData r _ _ _ => option_map tagReason r
  | UpgradeFailedErrorData _ _ => Some ReasonError
  | UpgradeFailedInvalidTexture _ => Some ReasonInvalidTexture
  end.

(** [ws.roomId] on a rejection. *)
Definition roomIdOf (d : UpgradeFailedData) : option string :=
  match d with
  | UpgradeFailedInvalidData _ _ _ r => Some r
  | _ => None
  end.

(** [status] of a rejection, when its shape has one. *)
Definition statusOf (d : UpgradeFailedData) : option Z :=
  match d with
  | UpgradeFailedInvalidData _ _ s _ => Some s
  | UpgradeFailedErrorData s _ => Some s
  | UpgradeFailedInvalidTexture _ => None
  end.

Definition Reason_eqb (a b : Reason) : bool :=
  match a, b with
  | ReasonTokenInvalid, ReasonTokenInvalid
  | ReasonInvalidVersion, ReasonInvalidVersion
  | ReasonError, ReasonError
  | ReasonInvalidTexture, ReasonInvalidTexture => true
  | _, _ => false
  end.

(** [a === b] on values of the [reason] field. *)
Definition strictEq (a b : option Reason) : bool :=
  match a, b with
  | None, None => true
  | Some r, Some r' => Reason_eqb r r'
  | _, _ => false
  end.

(** The collaborators of the upgrade. *)
Record Externals := {
  verifyJWTToken : string -> Exception + TokenData.t;
  fetchMemberDataByUuid : Lookup.t -> Exception + MemberData.t;
  ErrorApiData_safeParse : option string -> option ErrorApiData;
  JID_create : string -> string -> string -> string;
  Jwt_sign : string -> string -> string -> string -> string;
  getColorByString : string -> string
}.

(** What happens around one run of the upgrade that the handler does not
    decide: whether [res.onAborted] fired while it was suspended on the
    lookup, and the value [uuid()] returned. *)
Record Run := {
  onAbortedFired : bool;
  uuid : string
}.

(** ** The [/room] socket: [upgrade] *)

Inductive UpgradeEvent :=
| ConsoleLog (what : Report)
| ConsoleError (what : Report)
| SentryCapture (what : Report)
| FetchMemberDataByUuid (args : Lookup.t)
| ResUpgrade (userData : UpgradeData.t + UpgradeFailedData)
             (key protocol extensions : string).

(** The state of a running upgrade is the flag [upgradeAborted.aborted]. *)
Definition U := M bool UpgradeEvent.

(** The rejection sent to a client compiled against another version. *)
Definition newVersion : UpgradeFailedData :=
  UpgradeFailedErrorData 419
    [ ("type", JString "retry");
      ("title", JString "Please refresh");
      ("subtitle", JString "New version available");
      ("image", JString "/resources/icons/new_version.png");
      ("code", JString "NEW_VERSION");
      ("details", JString "A new version of Qtune is available. Please refresh your window");
      ("canRetryManual", JBool true);
      ("buttonTitle", JString "Refresh");
      ("timeToRetry", JNumber 999999) ].

Definition isSome {A} (o : option A) : bool :=
  match o with
  | Some _ => true
  | None => false
  end.

Section Upgrade.

Variable cfg : Config.
Variable ext : Externals.
Variable req : Headers.
Variable run : Run.

Definition resUpgrade (d : UpgradeData.t + UpgradeFailedData) : U unit :=
  emit (ResUpgrade d (websocketKey req) (websocketProtocol req)
                   (websocketExtensions req)).

(** [if (upgradeAborted.aborted) { return; }] *)
Definition returnIfAborted : U unit :=
  (aborted <- get ;; when aborted exit)%handler.

(** [await p]: the handler is suspended; [res.onAborted]'s callback may run
    before it resumes with the result of [p]. *)
Definition await {A} (p : Exception + A) : U A :=
  (aborted <- get ;;
   put (aborted || onAbortedFired run) ;;
   call p)%handler.

(** The version check (lines 322-350). *)
Definition checkVersion (query : Query.t) : U unit :=
  when (negb (String.eqb (Query.version query) (apiVersionHash cfg)))
    (returnIfAborted ;;
     resUpgrade (inr newVersion) ;;
     exit)%handler.

(** [characterTextureIds], one string or an array, as an array
    (lines 352-355). *)
Definition characterTextureIds (query : Query.t) : list string :=
  match Query.characterTextureIds query with
  | inl single => [single]
  | inr ids => ids
  end.

(** [token ? jwtTokenManager.verifyJWTToken(token) : null] (line 357) *)
Definition verifyToken (query : Query.t) : U (option TokenData.t) :=
  match Query.token query with
  | Some token =>
      if Js.truthy token
      then (d <- call (verifyJWTToken ext token) ;; ret (Some d))%handler
      else ret None
  | None => ret None
  end.

Definition userIdentifier (tokenData : option TokenData.t) : string :=
  match tokenData with
  | Some d => TokenData.identifier d
  | None => ""
  end.

(** [tokenData?.accessToken] *)
Definition accessToken (tokenData : option TokenData.t) : option string :=
  match tokenData with
  | Some d => TokenData.accessToken d
  | None => None
  end.

Definition isLogged (tokenData : option TokenData.t) : bool :=
  Js.truthyOpt (accessToken tokenData).

Definition lookupArgs (query : Query.t) (tokenData : option TokenData.t)
  : Lookup.t :=
  {| Lookup.userIdentifier := userIdentifier tokenData;
     Lookup.accessToken := accessToken tokenData;
     Lookup.roomId := Query.roomId query;
     Lookup.IPAddress := IPAddress req;
     Lookup.characterTextureIds := characterTextureIds query;
     Lookup.companionTextureId := Query.companionTextureId query;
     Lookup.locale := locale req |}.

(** The [catch] around the awaited lookup (lines 400-453). *)
Definition onLookupError (query : Query.t) (err : Exception)
  : U MemberData.t :=
  if isAxiosError err then
    match ErrorApiData_safeParse ext (responseBody err) with
    | Some errorData =>
        (returnIfAborted ;;
         emit (SentryCapture (AxiosFailure (responseStatus err) errorData)) ;;
         emit (ConsoleError (AxiosFailure (responseStatus err) errorData)) ;;
         resUpgrade (inr (UpgradeFailedErrorData
                            (Js.orNum (responseStatus err) 500) errorData)) ;;
         exit)%handler
    | None =>
        (emit (SentryCapture (UnknownFailure err)) ;;
         emit (ConsoleError (UnknownFailure err)) ;;
         returnIfAborted ;;
         resUpgrade (inr (UpgradeFailedInvalidData None (responseBody err) 500
                                                   (Query.roomId query))) ;;
         exit)%handler
    end
  else throw err.

(** The [catch] around that [try] (lines 459-466): whatever was thrown is
    reported and replaced. *)
Definition onAccessDenied (query : Query.t) (tokenData : option TokenData.t)
           (e : Exception) : U MemberData.t :=
  (emit (ConsoleLog
           (Text ("access not granted for user "
                    ++ (if Js.truthy (userIdentifier tokenData)
                        then userIdentifier tokenData else "anonymous")
                    ++ " and room " ++ Query.roomId query)%string)) ;;
   emit (SentryCapture (Caught e)) ;;
   emit (ConsoleError (Caught e)) ;;
   throw (Error "User cannot access this world"))%handler.

(** The lookup with its two nested [try] blocks (lines 389-466). *)
Definition fetch (query : Query.t) (tokenData : option TokenData.t)
  : U MemberData.t :=
  tryCatch
    (tryCatch
       (emit (FetchMemberDataByUuid (lookupArgs query tokenData)) ;;
        await (fetchMemberDataByUuid ext (lookupArgs query tokenData)))%handler
       (onLookupError query))
    (onAccessDenied query tokenData).

(** Assignment to [userData.jabberId] and [userData.jabberPassword]. *)
Definition setJabber (u : MemberData.t) (id : option string)
           (password : option string) : MemberData.t :=
  {| MemberData.email := MemberData.email u;
     MemberData.userUuid := MemberData.userUuid u;
     MemberData.tags := MemberData.tags u;
     MemberData.visitCardUrl := MemberData.visitCardUrl u;
     MemberData.characterTextures := MemberData.characterTextures u;
     MemberData.companionTexture := MemberData.companionTexture u;
     MemberData.messages := MemberData.messages u;
     MemberData.anonymous := MemberData.anonymous u;
     MemberData.userRoomToken := MemberData.userRoomToken u;
     MemberData.jabberId := id;
     MemberData.jabberPassword := password;
     MemberData.mucRooms := MemberData.mucRooms u;
     MemberData.activatedInviteUser := MemberData.activatedInviteUser u;
     MemberData.canEdit := MemberData.canEdit u;
     MemberData.applications := MemberData.applications u |}.

(** The chat credentials of the session (lines 468-485). *)
Definition chatCredentials (tokenData : option TokenData.t)
           (userData : MemberData.t) : MemberData.t :=
  if negb (Js.truthyOpt (MemberData.jabberId userData)) then
    let jabberId :=
      JID_create ext (userIdentifier tokenData) (EJABBERD_DOMAIN cfg) (uuid run) in
    if Js.truthyOpt (EJABBERD_JWT_SECRET cfg) then
      setJabber userData (Some jabberId)
        (Some (Jwt_sign ext jabberId
                 (Js.nullish (EJABBERD_JWT_SECRET cfg) "") "1d" "HS256"))
    else
      setJabber userData (Some jabberId) (Some "no_password_set")
  else
    setJabber userData
      (Some (Js.nullish (MemberData.jabberId userData) "" ++ "/" ++ uuid run)%string)
      (MemberData.jabberPassword userData).

(** [a || undefined] on an optional boolean. *)
Definition orUndefined (a : option bool) : option bool :=
  match a with
  | Some true => Some true
  | _ => None
  end.

(** The object [responseData] (lines 521-579). *)
Definition responseData (query : Query.t) (tokenData : option TokenData.t)
           (userData : MemberData.t) : UpgradeData.t :=
  {| UpgradeData.token :=
       match Query.token query with
       | Some token => if Js.truthy token then token else ""
       | None => ""
       end;
     UpgradeData.userUuid := MemberData.userUuid userData;
     UpgradeData.userJid := MemberData.jabberId userData;
     UpgradeData.IPAddress := IPAddress req;
     UpgradeData.userIdentifier := userIdentifier tokenData;
     UpgradeData.roomId := Query.roomId query;
     UpgradeData.name := Query.name query;
     UpgradeData.companionTexture := MemberData.companionTexture userData;
     UpgradeData.availabilityStatus := Query.availabilityStatus query;
     UpgradeData.lastCommandId := Query.lastCommandId query;
     UpgradeData.characterTextures := MemberData.characterTextures userData;
     UpgradeData.tags := MemberData.tags userData;
     UpgradeData.visitCardUrl := MemberData.visitCardUrl userData;
     UpgradeData.userRoomToken := MemberData.userRoomToken userData;
     UpgradeData.jabberId := MemberData.jabberId userData;
     UpgradeData.jabberPassword := MemberData.jabberPassword userData;
     UpgradeData.mucRooms := MemberData.mucRooms userData;
     UpgradeData.activatedInviteUser :=
       orUndefined (MemberData.activatedInviteUser userData);
     UpgradeData.canEdit := Js.nullish (MemberData.canEdit userData) false;
     UpgradeData.applications := MemberData.applications userData;
     UpgradeData.position :=
       {| pointX := Query.x query; pointY := Query.y query;
          direction := "down"; moving := false |};
     UpgradeData.viewport :=
       {| viewTop := Query.top query; viewRight := Query.right query;
          viewBottom := Query.bottom query; viewLeft := Query.left query |};
     UpgradeData.isLogged := isLogged tokenData;
     UpgradeData.messages := [];
     UpgradeData.spaceUser :=
       {| SpaceUser.id := 0;
          SpaceUser.uuid := MemberData.userUuid userData;
          SpaceUser.name := Query.name query;
          SpaceUser.playUri := Query.roomId query;
          SpaceUser.roomName := "";
          SpaceUser.availabilityStatus := Query.availabilityStatus query;
          SpaceUser.isLogged := isLogged tokenData;
          SpaceUser.color := getColorByString ext (Query.name query);
          SpaceUser.tags := MemberData.tags userData;
          SpaceUser.cameraState := false;
          SpaceUser.screenSharing := false;
          SpaceUser.microphoneState := false;
          SpaceUser.megaphoneState := false;
          SpaceUser.characterTextures :=
            map (fun characterTexture =>
                   (wokaUrl characterTexture, wokaId characterTexture))
                (MemberData.characterTextures userData);
          SpaceUser.visitCardUrl := MemberData.visitCardUrl userData |} |}.

(** The two texture checks that follow the abort check (lines 493-519). *)
Definition validateTextures (query : Query.t) (userData : MemberData.t)
  : U unit :=
  (when (negb (Nat.eqb (length (characterTextureIds query))
                       (length (MemberData.characterTextures userData))))
     (resUpgrade (inr (UpgradeFailedInvalidTexture character)) ;;
      exit) ;;
   when (Js.truthyOpt (Query.companionTextureId query)
         && negb (isSome (MemberData.companionTexture userData)))
     (resUpgrade (inr (UpgradeFailedInvalidTexture companion)) ;;
      exit))%handler.

(** What follows the lookup inside the outer [try] (lines 468-589). *)
Definition commit (query : Query.t) (tokenData : option TokenData.t)
           (fetched : MemberData.t) : U unit :=
  (let userData := chatCredentials tokenData fetched in
   aborted <- get ;;
   when aborted
     (emit (ConsoleLog (Text "Ouch! Client disconnected before we could upgrade it!")) ;;
      exit) ;;
   validateTextures query userData ;;
   resUpgrade (inl (responseData query tokenData userData)))%handler.

(** The body of the outer [try] (lines 321-589). *)
Definition attempt (query : Query.t) : U unit :=
  (checkVersion query ;;
   tokenData <- verifyToken query ;;
   when (DISABLE_ANONYMOUS cfg && negb (isSome tokenData))
     (throw (Error "Expecting token")) ;;
   fetched <- fetch query tokenData ;;
   commit query tokenData fetched)%handler.

(** The outer [catch] (lines 590-632). *)
Definition onFailure (query : Query.t) (e : Exception) : U unit :=
  if instanceofError e then
    (when (negb (instanceofJsonWebTokenError e))
       (emit (SentryCapture (Caught e)) ;;
        emit (ConsoleError (Caught e))) ;;
     returnIfAborted ;;
     resUpgrade (inr (UpgradeFailedInvalidData
                        (if instanceofJsonWebTokenError e
                         then tokenInvalidException cfg else None)
                        (Some (messageOf e)) 401 (Query.roomId query))))%handler
  else
    (returnIfAborted ;;
     resUpgrade (inr (UpgradeFailedInvalidData
                        None (Some "500 Internal Server Error") 500
                        (Query.roomId query))))%handler.

(** The [upgrade] handler; [validated] is the result of
    [validateWebsocketQuery], [None] when it already answered the request. *)
Definition upgrade (validated : option Query.t) : U unit :=
  match validated with
  | None => exit
  | Some query => tryCatch (attempt query) (onFailure query)
  end.

(** The calls one upgrade makes, [upgradeAborted] starting at
    [{ aborted: false }]. *)
Definition upgradeCalls (validated : option Query.t) : list UpgradeEvent :=
  calls (upgrade validated false).

End Upgrade.

(** The data given to [res.upgrade], call by call. *)
Definition upgrades (t : list UpgradeEvent)
  : list (UpgradeData.t + UpgradeFailedData) :=
  flat_map (fun ev => match ev with ResUpgrade d _ _ _ => [d] | _ => [] end) t.

(** The lookups started. *)
Definition lookups (t : list UpgradeEvent) : list Lookup.t :=
  flat_map (fun ev => match ev with FetchMemberDataByUuid a => [a] | _ => [] end) t.

End Room.

(** ** The [/room] socket: [open] *)

Module RoomOpen.

Import Handler Room.

(** The session [initClient] makes of the socket: the seed it copies and
    the fields it initialises. *)
Record Client := {
  seed : UpgradeData.t;
  disconnecting : bool;
  batchedMessages : string * list Opaque;
  batchTimeout : option Z;
  listenedZones : list Opaque;
  spaces : list Opaque;
  spacesFilters : list (string * list Opaque)
}.

(** [initClient] (lines 914-959). *)
Definition initClient (ws : UpgradeData.t) : Client :=
  {| seed := ws;
     disconnecting := false;
     batchedMessages := ("", []);
     batchTimeout := None;
     listenedZones := [];
     spaces := [];
     spacesFilters := [] |}.

Inductive Event :=
| DeleteRoomIfEmptyFromId (roomId : string)
| EmitTokenExpiredMessage
| EmitErrorScreenMessage (error : ErrorApiData)
| EmitInvalidCharacterTextureMessage
| EmitInvalidCompanionTextureMessage
| EmitConnectionErrorMessage (message : option string)
| WsEnd (code : Z) (reason : string)
| HandleJoinRoom (client : Client)
| EmitXMPPSettings
| ClientSend (type message : string)
| SentryCapture (what : Report)
| ConsoleError (what : Report).

(** What the [open] handler does not decide: how [handleJoinRoom] ends,
    whether the socket was closed while it was awaited, and what the schema
    of a queued user message makes of each entry of [client.messages]. *)
Record Run := {
  joinRoom : Exception + unit;
  closedWhileJoining : bool;
  parseMessage : Opaque -> Exception + (string * string)
}.

(** The state is the session, [None] until [initClient] has run. *)
Definition O := M (option Client) Event.

Definition setDisconnecting (b : bool) (c : Client) : Client :=
  {| seed := seed c;
     disconnecting := b;
     batchedMessages := batchedMessages c;
     batchTimeout := batchTimeout c;
     listenedZones := listenedZones c;
     spaces := spaces c;
     spacesFilters := spacesFilters c |}.

(** The branch [ws.rejected === true] (lines 642-663). *)
Definition rejected (cfg : Config) (ws : UpgradeFailedData) : O unit :=
  (when (Js.truthyOpt (roomIdOf ws))
     (emit (DeleteRoomIfEmptyFromId (Js.nullish (roomIdOf ws) ""))) ;;
   (if strictEq (reasonOf ws) (option_map tagReason (tokenInvalidException cfg))
    then emit EmitTokenExpiredMessage
    else match ws with
         | UpgradeFailedErrorData _ error => emit (EmitErrorScreenMessage error)
         | UpgradeFailedInvalidTexture character =>
             emit EmitInvalidCharacterTextureMessage
         | UpgradeFailedInvalidTexture companion =>
             emit EmitInvalidCompanionTextureMessage
         | UpgradeFailedInvalidData _ message _ _ =>
             emit (EmitConnectionErrorMessage message)
         end) ;;
   emit (WsEnd 1000 "Error message sent") ;;
   exit)%handler.

(** [await socketManager.handleJoinRoom(client)]: while the handler is
    suspended the [close] handler may mark the session as disconnecting. *)
Definition awaitJoinRoom (run : Run) (client : Client) : O unit :=
  (emit (HandleJoinRoom client) ;;
   current <- get ;;
   put (option_map
          (fun c => setDisconnecting (disconnecting c || closedWhileJoining run) c)
          current) ;;
   call (joinRoom run))%handler.

(** [client.disconnecting], read from the session. *)
Definition isDisconnecting : O bool :=
  (current <- get ;;
   ret (match current with
        | Some c => disconnecting c
        | None => false
        end))%handler.

(** The branch that joins the room (lines 665-690). *)
Definition accepted (run : Run) (ws : UpgradeData.t) : O unit :=
  (let client := initClient ws in
   put (Some client) ;;
   awaitJoinRoom run client ;;
   emit EmitXMPPSettings ;;
   forOf (UpgradeData.messages (seed client))
     (fun c =>
        messageToSend <- call (parseMessage run c) ;;
        gone <- isDisconnecting ;;
        when (negb gone)
          (emit (ClientSend (fst messageToSend) (snd messageToSend)))))%handler.

(** The [open] handler, on the data [res.upgrade] attached to the socket. *)
Definition open (cfg : Config) (run : Run)
           (ws : UpgradeData.t + UpgradeFailedData) : O unit :=
  tryCatch
    (match ws with
     | inr failed => rejected cfg failed
     | inl data => accepted run data
     end)
    (fun e =>
       emit (SentryCapture (Caught e)) ;;
       emit (ConsoleError (Caught e)))%handler.

(** One run of [open] on a fresh socket. *)
Definition opened (cfg : Config) (run : Run)
           (ws : UpgradeData.t + UpgradeFailedData) : outcome unit :=
  open cfg run ws None.

(** The close codes given to [ws.end], call by call. *)
Definition closeCodes (t : list Event) : list Z :=
  flat_map (fun ev => match ev with WsEnd c _ => [c] | _ => [] end) t.

(** The sessions handed to [socketManager.handleJoinRoom]. *)
Definition joins (t : list Event) : list Client :=
  flat_map (fun ev => match ev with HandleJoinRoom c => [c] | _ => [] end) t.

(** The event that is not a call into [socketManager] nor telemetry: the
    error message sent to the rejected client before the close. *)
Definition isErrorMessage (ev : Event) : bool :=
  match ev with
  | EmitTokenExpiredMessage | EmitErrorScreenMessage _
  | EmitInvalidCharacterTextureMessage | EmitInvalidCompanionTextureMessage
  | EmitConnectionErrorMessage _ => true
  | _ => false
  end.

End RoomOpen.

(** ** The [/room] socket: [close] *)

Module RoomClose.

Import Handler.

(** The fields of the session the [close] handler touches. *)
Record Socket := {
  disconnecting : bool;
  pingIntervalId : option Z;
  pongTimeoutId : option Z
}.

Inductive Event :=
| LeaveRoom
| LeaveSpaces
| SentryCapture (what : Report)
| ConsoleError (what : Report)
| ClearInterval (id : Z)
| ClearTimeout (id : Z).

(** How the two cleanup calls into [socketManager] end. *)
Record Run := {
  leaveRoom : Exception + unit;
  leaveSpaces : Exception + unit
}.

Definition C := M Socket Event.

Definition quote : string := String "034"%char EmptyString.

(** The text of line 899, with [e] as the template literal renders it. *)
Definition disconnectReport (e : Exception) : Report :=
  Text ("An error occurred on " ++ quote ++ "disconnect" ++ quote ++ " "
          ++ toString e).

(** The [close] handler of the [/room] socket (lines 892-909). *)
Definition close (run : Run) : C unit :=
  tryFinally
    (tryCatch
       (client <- get ;;
        put {| disconnecting := true;
               pingIntervalId := pingIntervalId client;
               pongTimeoutId := pongTimeoutId client |} ;;
        emit LeaveRoom ;;
        call (leaveRoom run) ;;
        emit LeaveSpaces ;;
        call (leaveSpaces run))%handler
       (fun e =>
          emit (SentryCapture (disconnectReport e)) ;;
          emit (ConsoleError (Caught e)))%handler)
    (client <- get ;;
     match pingIntervalId client with
     | Some id => emit (ClearInterval id)
     | None => ret tt
     end ;;
     match pongTimeoutId client with
     | Some id => emit (ClearTimeout id)
     | None => ret tt
     end)%handler.

End RoomClose.

(** ** The [/room] socket: [message] *)

Module RoomMessage.

Import Handler Room.

(** [message.message] of a decoded [ClientToServerMessage]: the cases the
    handler switches on, each with what the handler reads of it. *)
Inductive Message :=
| viewportMessage (payload : Opaque)
| userMovesMessage (payload : Opaque)
| playGlobalMessage (payload : Opaque)
| reportPlayerMessage (payload : Opaque)
| addSpaceFilterMessage (payload : Opaque)
| updateSpaceFilterMessage (payload : Opaque)
| removeSpaceFilterMessage (payload : Opaque)
| setPlayerDetailsMessage (payload : Opaque)
| watchSpaceMessage (spaceName : string) (spaceFilter : Opaque)
| unwatchSpaceMessage (spaceName : string)
| cameraStateMessage (value : bool)
| microphoneStateMessage (value : bool)
| megaphoneStateMessage (payload : Opaque)
| jitsiParticipantIdSpaceMessage (spaceName : string) (value : string)
| queryMessage (queryCase : option string) (payload : Opaque)
| itemEventMessage (payload : Opaque)
| variableMessage (payload : Opaque)
| webRtcSignalToServerMessage (payload : Opaque)
| webRtcScreenSharingSignalToServerMessage (payload : Opaque)
| emotePromptMessage (payload : Opaque)
| followRequestMessage (payload : Opaque)
| followConfirmationMessage (payload : Opaque)
| followAbortMessage (payload : Opaque)
| lockGroupPromptMessage (payload : Opaque)
| pingMessage (payload : Opaque)
| editMapCommandMessage (payload : Opaque)
| askPositionMessage (payload : Opaque).

Inductive Event :=
| ConsoleWarn (what : string)
| SentryCapture (what : Report)
| ConsoleError (what : Report)
| HandleViewport (viewport : Opaque)
| HandleUserMovesMessage (moves : Opaque)
| EmitPlayGlobalMessage (playGlobal : Opaque)
| HandleReportMessage (report : Opaque)
| HandleAddSpaceFilterMessage (filter : Opaque)
| HandleUpdateSpaceFilterMessage (filter : Opaque)
| HandleRemoveSpaceFilterMessage (filter : Opaque)
| HandleSetPlayerDetails (details : Opaque)
| HandleJoinSpace (spaceName : string) (spaceFilter : Opaque)
| HandleLeaveSpace (spaceName : string)
| HandleCameraState (value : bool)
| HandleMicrophoneState (value : bool)
| HandleMegaphoneState (megaphone : Opaque)
| HandleJitsiParticipantIdSpace (spaceName : string) (value : string)
| HandleRoomTagsQuery (queryCase : option string) (payload : Opaque)
| HandleEmbeddableWebsiteQuery (queryCase : option string) (payload : Opaque)
| ForwardMessageToBack (message : Message).

(** What the handler does not decide: what [ClientToServerMessage.decode]
    makes of the frame ([None] for a frame without [message]), and whether
    the call into [socketManager] throws (or, when it is awaited,
    rejects). *)
Record Run := {
  decoded : Exception + option Message;
  called : Exception + unit
}.

Definition R := M unit Event.

(** One call into [socketManager]. *)
Definition invoke (run : Run) (target : Event) : R unit :=
  (emit target ;; call (called run))%handler.

(** The [switch] (lines 772-880). *)
Definition dispatch (run : Run) (message : Message) : R unit :=
  match message with
  | viewportMessage p => invoke run (HandleViewport p)
  | userMovesMessage p => invoke run (HandleUserMovesMessage p)
  | playGlobalMessage p => invoke run (EmitPlayGlobalMessage p)
  | reportPlayerMessage p => invoke run (HandleReportMessage p)
  | addSpaceFilterMessage p => invoke run (HandleAddSpaceFilterMessage p)
  | updateSpaceFilterMessage p => invoke run (HandleUpdateSpaceFilterMessage p)
  | removeSpaceFilterMessage p => invoke run (HandleRemoveSpaceFilterMessage p)
  | setPlayerDetailsMessage p => invoke run (HandleSetPlayerDetails p)
  | watchSpaceMessage spaceName spaceFilter =>
      invoke run (HandleJoinSpace spaceName spaceFilter)
  | unwatchSpaceMessage spaceName => invoke run (HandleLeaveSpace spaceName)
  | cameraStateMessage value => invoke run (HandleCameraState value)
  | microphoneStateMessage value => invoke run (HandleMicrophoneState value)
  | megaphoneStateMessage p => invoke run (HandleMegaphoneState p)
  | jitsiParticipantIdSpaceMessage spaceName value =>
      invoke run (HandleJitsiParticipantIdSpace spaceName value)
  | queryMessage queryCase p =>
      match queryCase with
      | Some c =>
          if String.eqb c "roomTagsQuery"
          then invoke run (HandleRoomTagsQuery queryCase p)
          else if String.eqb c "embeddableWebsiteQuery"
          then invoke run (HandleEmbeddableWebsiteQuery queryCase p)
          else invoke run (ForwardMessageToBack message)
      | None => invoke run (ForwardMessageToBack message)
      end
  | itemEventMessage _ | variableMessage _ | webRtcSignalToServerMessage _
  | webRtcScreenSharingSignalToServerMessage _ | emotePromptMessage _
  | followRequestMessage _ | followConfirmationMessage _ | followAbortMessage _
  | lockGroupPromptMessage _ | pingMessage _ | editMapCommandMessage _
  | askPositionMessage _ => invoke run (ForwardMessageToBack message)
  end.

(** The [message] handler (lines 761-888). *)
Definition onMessage (run : Run) : R unit :=
  tryCatch
    (message <- call (decoded run) ;;
     match message with
     | None => emit (ConsoleWarn "Empty message received.") ;; exit
     | Some m => dispatch run m
     end)%handler
    (fun e =>
       emit (SentryCapture (Caught e)) ;;
       emit (ConsoleError (Caught e)))%handler.

End RoomMessage.

(** ** JavaScript [Map] *)

Module JsMap.
Section WithKey.

Context {K V : Type}.
Variable eqb : K -> K -> bool.

(** [m.get(k)]; [None] is [undefined]. *)
Fixpoint get (m : list (K * V)) (k : K) : option V :=
  match m with
  | [] => None
  | (k', v) :: rest => if eqb k' k then Some v else get rest k
  end.

(** [m.set(k, v)]: the entry of [k] is replaced where it stands, or added
    last. *)
Fixpoint set (m : list (K * V)) (k : K) (v : V) : list (K * V) :=
  match m with
  | [] => [(k, v)]
  | (k', v') :: rest =>
      if eqb k' k then (k', v) :: rest else (k', v') :: set rest k v
  end.

(** [m.delete(k)]. *)
Definition delete (m : list (K * V)) (k : K) : list (K * V) :=
  filter (fun entry => negb (eqb (fst entry) k)) m.

End WithKey.
End JsMap.

(** ** The scripting API: [WA.room.area] streams *)

Module AreaCommands.

Import Handler.

(** A [Subject] is known by the order in which [new Subject()] made it. *)
Definition Subject := nat.

(** The two module-level maps, and the number of subjects made so far. *)
Record Streams := {
  enterAreaStreams : list (string * Subject);
  leaveAreaStreams : list (string * Subject);
  subjects : nat
}.

Inductive Event :=
| Next (subject : Subject)
| QueryWorkadventure (type : string) (data : string).

Definition W := M Streams Event.

(** The callback of ["enterAreaEvent"] (lines 13-18). *)
Definition enterAreaEvent (name : string) : W unit :=
  (s <- get ;;
   match JsMap.get String.eqb (enterAreaStreams s) name with
   | Some subject => emit (Next subject)
   | None => ret tt
   end)%handler.

(** The callback of ["leaveAreaEvent"] (lines 19-24). *)
Definition leaveAreaEvent (name : string) : W unit :=
  (s <- get ;;
   match JsMap.get String.eqb (leaveAreaStreams s) name with
   | Some subject => emit (Next subject)
   | None => ret tt
   end)%handler.

(** [delete] (lines 65-72); [answer] is how the awaited query ends. *)
Definition delete (answer : Exception + unit) (name : string) : W unit :=
  (emit (QueryWorkadventure "deleteArea" name) ;;
   call answer ;;
   s <- get ;;
   put {| enterAreaStreams := JsMap.delete String.eqb (enterAreaStreams s) name;
          leaveAreaStreams := leaveAreaStreams s;
          subjects := subjects s |} ;;
   s <- get ;;
   put {| enterAreaStreams := enterAreaStreams s;
          leaveAreaStreams := JsMap.delete String.eqb (leaveAreaStreams s) name;
          subjects := subjects s |})%handler.

(** [onEnter] (lines 81-89). *)
Definition onEnter (areaName : string) : W Subject :=
  (s <- get ;;
   match JsMap.get String.eqb (enterAreaStreams s) areaName with
   | Some subject => ret subject
   | None =>
       let subject := subjects s in
       put {| enterAreaStreams :=
                JsMap.set String.eqb (enterAreaStreams s) areaName subject;
              leaveAreaStreams := leaveAreaStreams s;
              subjects := S (subjects s) |} ;;
       ret subject
   end)%handler.

(** [onLeave] (lines 98-106). *)
Definition onLeave (areaName : string) : W Subject :=
  (s <- get ;;
   match JsMap.get String.eqb (leaveAreaStreams s) areaName with
   | Some subject => ret subject
   | None =>
       let subject := subjects s in
       put {| enterAreaStreams := enterAreaStreams s;
              leaveAreaStreams :=
                JsMap.set String.eqb (leaveAreaStreams s) areaName subject;
              subjects := S (subjects s) |} ;;
       ret subject
   end)%handler.

(** The module as it is loaded: two empty maps. *)
Definition loaded : Streams :=
  {| enterAreaStreams := []; leaveAreaStreams := []; subjects := 0 |}.

End AreaCommands.

(** ** The scripting API: the [message] listener of the iframe *)

Module IframeApi.

Import Handler.

(** What the three validators make of [message.data]: the error answer
    [{id, error}], the answer [{id, data}], the event [{type, data}]. *)
Record Payload := {
  asErrorAnswer : option (nat * string);
  asAnswer : option (nat * string);
  asResponse : option (string * string)
}.

Record MessageEvent := {
  fromParent : bool;
  data : Payload
}.

(** A resolver of [answerPromises] is known by the promise it settles. *)
Definition Resolver := nat.

Inductive Event :=
| Reject (resolver : Resolver) (error : string)
| Resolve (resolver : Resolver) (answer : string)
| Callback (type : string) (payload : string).

(** The state is the map [answerPromises]. *)
Definition I := M (list (nat * Resolver)) Event.

(** The listener (lines 198-240); [registeredCallbacks] is given by the types
    that have a callback. *)
Definition onMessage (registeredCallbacks : list string) (message : MessageEvent)
  : I unit :=
  (when (negb (fromParent message)) exit ;;
   match asErrorAnswer (data message) with
   | Some (queryId, payloadError) =>
       answerPromises <- get ;;
       match JsMap.get Nat.eqb answerPromises queryId with
       | None =>
           throw (Error "In Iframe API, got an error answer for a question that we have no track of.")
       | Some resolver =>
           emit (Reject resolver payloadError) ;;
           put (JsMap.delete Nat.eqb answerPromises queryId)
       end
   | None =>
       match asAnswer (data message) with
       | Some (queryId, payloadData) =>
           answerPromises <- get ;;
           match JsMap.get Nat.eqb answerPromises queryId with
           | None =>
               throw (Error "In Iframe API, got an answer for a question that we have no track of.")
           | Some resolver =>
               emit (Resolve resolver payloadData) ;;
               put (JsMap.delete Nat.eqb answerPromises queryId)
           end
       | None =>
           match asResponse (data message) with
           | Some (type, payloadData) =>
               when (Js.includes registeredCallbacks type)
                    (emit (Callback type payloadData))
           | None => ret tt
           end
       end
   end)%handler.

End IframeApi.

(** * Concrete inputs and derived notions *)

Import Handler.

(** The calls of a refused ["listen"] request. *)
Definition refusal (ext : Admin.Externals) (remoteAddress : string)
           (notAuthorizedRoom : list string) : list Admin.Event :=
  let errorMessage := Admin.refusalText ext remoteAddress notAuthorizedRoom in
  [ Admin.SentryCapture (Text errorMessage);
    Admin.ConsoleError (Text errorMessage);
    Admin.WsSendError errorMessage;
    Admin.WsEnd 1008 "Access refused" ].

Definition ext0 : Admin.Externals :=
  {| Admin.verifyAdminSocketToken :=
       fun _ => inr {| Admin.authorizedRoomIds := ["a"; "b"] |};
     Admin.JSON_stringify := String.concat "," |}.

Import Room.

Import RoomOpen.

(** The error message [open] sends for a rejection. *)
Definition errorMessageFor (cfg : Config) (ws : UpgradeFailedData) : Event :=
  if strictEq (reasonOf ws) (option_map tagReason (tokenInvalidException cfg))
  then EmitTokenExpiredMessage
  else match ws with
       | UpgradeFailedErrorData _ error => EmitErrorScreenMessage error
       | UpgradeFailedInvalidTexture character => EmitInvalidCharacterTextureMessage
       | UpgradeFailedInvalidTexture companion => EmitInvalidCompanionTextureMessage
       | UpgradeFailedInvalidData _ message _ _ => EmitConnectionErrorMessage message
       end.

Definition cfg0 : Config :=
  {| apiVersionHash := "v2";
     DISABLE_ANONYMOUS := false;
     EJABBERD_DOMAIN := "xmpp.test";
     EJABBERD_JWT_SECRET := Some "s3cret";
     tokenInvalidException := Some tokenInvalid |}.

(** The same deployment with anonymous connections disabled. *)
Definition cfgClosed : Config :=
  {| apiVersionHash := "v2";
     DISABLE_ANONYMOUS := true;
     EJABBERD_DOMAIN := "xmpp.test";
     EJABBERD_JWT_SECRET := None;
     tokenInvalidException := Some tokenInvalid |}.

Definition typedPayload : ErrorApiData :=
  [ ("type", JString "error"); ("code", JString "ROOM_ACCESS_ERROR") ].

(** A member found by the admin API: every requested texture resolved. *)
Definition memberFor (args : Lookup.t) : MemberData.t :=
  {| MemberData.email := "alice@test";
     MemberData.userUuid := "uuid-alice";
     MemberData.tags := ["member"];
     MemberData.visitCardUrl := None;
     MemberData.characterTextures :=
       map (fun i => {| wokaId := i; wokaUrl := "/woka/" ++ i |})
           (Lookup.characterTextureIds args);
     MemberData.companionTexture :=
       option_map (fun i => {| companionId := i; companionUrl := "/pet/" ++ i |})
                  (Lookup.companionTextureId args);
     MemberData.messages := [];
     MemberData.anonymous := Some false;
     MemberData.userRoomToken := None;
     MemberData.jabberId := None;
     MemberData.jabberPassword := None;
     MemberData.mucRooms := Some [];
     MemberData.activatedInviteUser := Some true;
     MemberData.canEdit := None;
     MemberData.applications := None |}.

Definition collaborators (lookup : Lookup.t -> Exception + MemberData.t)
  : Externals :=
  {| verifyJWTToken :=
       fun token => inr {| TokenData.identifier := "alice";
                           TokenData.accessToken := Some token |};
     fetchMemberDataByUuid := lookup;
     ErrorApiData_safeParse :=
       fun body => match body with
                   | Some "typed" => Some typedPayload
                   | _ => None
                   end;
     JID_create := fun l d r => (l ++ "@" ++ d ++ "/" ++ r)%string;
     Jwt_sign := fun jid secret expiresIn alg =>
                   (alg ++ ":" ++ expiresIn ++ ":" ++ jid ++ ":" ++ secret)%string;
     getColorByString := fun _ => "#14304C" |}.

(** The admin API answers. *)
Definition extFound : Externals := collaborators (fun args => inr (memberFor args)).

(** The admin API resolves no texture at all. *)
Definition extNoTexture : Externals :=
  collaborators
    (fun args =>
       inr (setJabber
              {| MemberData.email := "";
                 MemberData.userUuid := "uuid-alice";
                 MemberData.tags := [];
                 MemberData.visitCardUrl := None;
                 MemberData.characterTextures := [];
                 MemberData.companionTexture := None;
                 MemberData.messages := [];
                 MemberData.anonymous := Some true;
                 MemberData.userRoomToken := None;
                 MemberData.jabberId := None;
                 MemberData.jabberPassword := None;
                 MemberData.mucRooms := None;
                 MemberData.activatedInviteUser := None;
                 MemberData.canEdit := None;
                 MemberData.applications := None |}
              (Some "alice@xmpp.test") (Some "pw"))).

(** The admin API refuses with a typed payload, status 403. *)
Definition extRefused : Externals :=
  collaborators
    (fun _ => inl (AxiosError "Request failed with status code 403"
                     (Some {| status := 403; data := Some "typed" |}))).

(** The admin API fails with a body that is no error payload. *)
Definition extBroken : Externals :=
  collaborators
    (fun _ => inl (AxiosError "Request failed with status code 502"
                     (Some {| status := 502; data := Some "<html>" |}))).

Definition req0 : Headers :=
  {| websocketKey := "dGhlIHNhbXBsZSBub25jZQ==";
     websocketProtocol := "";
     websocketExtensions := "permessage-deflate";
     IPAddress := "203.0.113.7";
     locale := "en" |}.

Definition queryWith (version : string) (token : option string)
           (textures : string + list string) (pet : option string) : Query.t :=
  {| Query.roomId := "/_/global/maps.test/room.json";
     Query.token := token;
     Query.name := "Alice";
     Query.characterTextureIds := textures;
     Query.x := 10; Query.y := 20;
     Query.top := 0; Query.bottom := 600; Query.left := 0; Query.right := 800;
     Query.companionTextureId := pet;
     Query.availabilityStatus := 1;
     Query.lastCommandId := None;
     Query.version := version |}.

Definition query0 : Query.t :=
  queryWith "v2" (Some "tok") (inr ["male1"; "hat2"]) None.

Definition runLive : Room.Run := {| onAbortedFired := false; uuid := "7f3a" |}.
Definition runAborted : Room.Run := {| onAbortedFired := true; uuid := "7f3a" |}.

Definition orun0 : RoomOpen.Run :=
  {| joinRoom := inr tt;
     closedWhileJoining := false;
     parseMessage := fun _ => inl (Error "ZodError") |}.

(** What the upgrade does once the awaited lookup has answered: the two
    [catch] clauses of the lookup, then the commit, inside the outer [try]. *)
Definition afterLookup (cfg : Config) (ext : Externals) (req : Headers)
           (run : Room.Run) (query : Query.t) (tokenData : option TokenData.t)
           (answer : Exception + MemberData.t) : U unit :=
  tryCatch
    (fetched <- tryCatch (tryCatch (call answer) (onLookupError ext req query))
                         (onAccessDenied query tokenData) ;;
     commit cfg ext req run query tokenData fetched)%handler
    (onFailure cfg req query).

Definition tokenData0 : option TokenData.t :=
  Some {| TokenData.identifier := "alice"; TokenData.accessToken := Some "tok" |}.

(** The query with another value of [characterTextureIds]. *)
Definition withTextures (q : Query.t) (ids : string + list string) : Query.t :=
  {| Query.roomId := Query.roomId q;
     Query.token := Query.token q;
     Query.name := Query.name q;
     Query.characterTextureIds := ids;
     Query.x := Query.x q; Query.y := Query.y q;
     Query.top := Query.top q; Query.bottom := Query.bottom q;
     Query.left := Query.left q; Query.right := Query.right q;
     Query.companionTextureId := Query.companionTextureId q;
     Query.availabilityStatus := Query.availabilityStatus q;
     Query.lastCommandId := Query.lastCommandId q;
     Query.version := Query.version q |}.

Import RoomClose.

(** The calls of the [finally] block. *)
Definition cancelTimers (s : Socket) : list RoomClose.Event :=
  match pingIntervalId s with
  | Some id => [ClearInterval id]
  | None => []
  end
  ++ match pongTimeoutId s with
     | Some id => [ClearTimeout id]
     | None => []
     end.

Definition socket0 : Socket :=
  {| RoomClose.disconnecting := false;
     pingIntervalId := Some 11%Z;
     pongTimeoutId := Some 12%Z |}.

Definition roomGone : RoomClose.Run :=
  {| leaveRoom := inl (Error "room not found"); leaveSpaces := inr tt |}.

Definition spaceGone : RoomClose.Run :=
  {| leaveRoom := inr tt; leaveSpaces := inl (Error "space gone") |}.

(** The close codes the admin socket gives to [ws.end], call by call. *)
Definition adminCloseCodes (t : list Admin.Event) : list Z :=
  flat_map (fun ev => match ev with Admin.WsEnd c _ => [c] | _ => [] end) t.

(** The rooms an admin frame acted on: listened to, or sent a ban or a
    message. *)
Definition roomActions (t : list Admin.Event) : list string :=
  flat_map (fun ev => match ev with
                      | Admin.HandleAdminRoom r
                      | Admin.EmitBan _ _ _ r
                      | Admin.EmitSendUserMessage _ _ _ r => [r]
                      | _ => []
                      end) t.

(** [roomId.split("/")[5] === world] *)
Definition inWorld (world roomId : string) : bool :=
  match nth_error (Js.split "/"%char roomId) 5 with
  | Some w => String.eqb w world
  | None => false
  end.

(** An admin API key for two rooms of world ["w7"] and one of world ["w8"]. *)
Definition extWorld : Admin.Externals :=
  {| Admin.verifyAdminSocketToken :=
       fun _ => inr {| Admin.authorizedRoomIds :=
                         [ "https://play.test/@/org/w7/lobby";
                           "https://play.test/@/org/w8/lobby";
                           "https://play.test/@/org/w7/office" ] |};
     Admin.JSON_stringify := String.concat "," |}.

(** The body of the loop over [client.messages] (lines 673-689). *)
Definition deliver (run : RoomOpen.Run) (c : Opaque) : O unit :=
  (messageToSend <- call (parseMessage run c) ;;
   gone <- isDisconnecting ;;
   when (negb gone)
     (emit (ClientSend (fst messageToSend) (snd messageToSend))))%handler.

(** The token service refuses every token as expired. *)
Definition extExpired : Externals :=
  {| verifyJWTToken := fun _ => inl (JsonWebTokenError "jwt expired");
     fetchMemberDataByUuid := fun args => inr (memberFor args);
     ErrorApiData_safeParse := fun _ => None;
     JID_create := fun l d r => (l ++ "@" ++ d ++ "/" ++ r)%string;
     Jwt_sign := fun jid secret expiresIn alg => jid;
     getColorByString := fun _ => "#14304C" |}.

(** The admin API cannot be reached. *)
Definition extDown : Externals :=
  collaborators (fun _ => inl (Error "connect ECONNREFUSED 10.0.0.2:443")).

(** The seed of the accepted upgrade of [query0]. *)
Definition seed0 : UpgradeData.t :=
  responseData extFound req0 query0 tokenData0
    (chatCredentials cfg0 extFound runLive tokenData0
       (memberFor (lookupArgs req0 query0 tokenData0))).

(** A socket with other queued messages. *)
Definition withMessages (ws : UpgradeData.t) (messages : list Opaque)
  : UpgradeData.t :=
  {| UpgradeData.token := UpgradeData.token ws;
     UpgradeData.userUuid := UpgradeData.userUuid ws;
     UpgradeData.userJid := UpgradeData.userJid ws;
     UpgradeData.IPAddress := UpgradeData.IPAddress ws;
     UpgradeData.userIdentifier := UpgradeData.userIdentifier ws;
     UpgradeData.roomId := UpgradeData.roomId ws;
     UpgradeData.name := UpgradeData.name ws;
     UpgradeData.companionTexture := UpgradeData.companionTexture ws;
     UpgradeData.availabilityStatus := UpgradeData.availabilityStatus ws;
     UpgradeData.lastCommandId := UpgradeData.lastCommandId ws;
     UpgradeData.characterTextures := UpgradeData.characterTextures ws;
     UpgradeData.tags := UpgradeData.tags ws;
     UpgradeData.visitCardUrl := UpgradeData.visitCardUrl ws;
     UpgradeData.userRoomToken := UpgradeData.userRoomToken ws;
     UpgradeData.jabberId := UpgradeData.jabberId ws;
     UpgradeData.jabberPassword := UpgradeData.jabberPassword ws;
     UpgradeData.mucRooms := UpgradeData.mucRooms ws;
     UpgradeData.activatedInviteUser := UpgradeData.activatedInviteUser ws;
     UpgradeData.canEdit := UpgradeData.canEdit ws;
     UpgradeData.applications := UpgradeData.applications ws;
     UpgradeData.position := UpgradeData.position ws;
     UpgradeData.viewport := UpgradeData.viewport ws;
     UpgradeData.isLogged := UpgradeData.isLogged ws;
     UpgradeData.messages := messages;
     UpgradeData.spaceUser := UpgradeData.spaceUser ws |}.

(** The room is joined; every queued message but ["?"] passes the schema. *)
Definition orunJoined : RoomOpen.Run :=
  {| joinRoom := inr tt;
     closedWhileJoining := false;
     parseMessage := fun c => if String.eqb c "?"
                              then inl (Error "ZodError")
                              else inr ("message", c) |}.

(** The back refuses the join. *)
Definition orunRefused : RoomOpen.Run :=
  {| joinRoom := inl (Error "room is full");
     closedWhileJoining := false;
     parseMessage := fun c => inr ("message", c) |}.

(** The calls of the [message] handler that go to [socketManager]. *)
Definition socketManagerCalls (t : list RoomMessage.Event)
  : list RoomMessage.Event :=
  filter (fun ev => match ev with
                    | RoomMessage.ConsoleWarn _
                    | RoomMessage.SentryCapture _
                    | RoomMessage.ConsoleError _ => false
                    | _ => true
                    end) t.

(** Every subject held by the two maps was made by [new Subject()] before. *)
Definition allocated (s : AreaCommands.Streams) : Prop :=
  Forall (fun entry => snd entry < AreaCommands.subjects s)%nat
         (AreaCommands.enterAreaStreams s ++ AreaCommands.leaveAreaStreams s).

(** The value a block falls through with. *)
Definition returned {St Ev A} (o : outcome (St := St) (Ev := Ev) A) : option A :=
  match how o with
  | Normal a => Some a
  | _ => None
  end.

(** Two queries of the script wait for their answer. *)
Definition pending0 : list (nat * IframeApi.Resolver) := [(7, 70); (8, 80)]%nat.

(** The game answers query 7. *)
Definition answer7 : IframeApi.MessageEvent :=
  {| IframeApi.fromParent := true;
     IframeApi.data :=
       {| IframeApi.asErrorAnswer := None;
          IframeApi.asAnswer := Some (7%nat, "{x:1}");
          IframeApi.asResponse := None |} |}.

(** The game answers query 8 with an error. *)
Definition error8 : IframeApi.MessageEvent :=
  {| IframeApi.fromParent := true;
     IframeApi.data :=
       {| IframeApi.asErrorAnswer := Some (8%nat, "Area not found");
          IframeApi.asAnswer := Some (8%nat, "");
          IframeApi.asResponse := None |} |}.

(** The game tells that the player entered an area. *)
Definition enterKitchen : IframeApi.MessageEvent :=
  {| IframeApi.fromParent := true;
     IframeApi.data :=
       {| IframeApi.asErrorAnswer := None;
          IframeApi.asAnswer := None;
          IframeApi.asResponse := Some ("enterAreaEvent", "kitchen") |} |}.

(** * Properties *)

(** ** Arrays and loops *)

Lemma includes_In (xs : list string) (x : string) :
  Js.includes xs x = true <-> In x xs.
Proof.
  unfold Js.includes. rewrite existsb_exists. split.
  - intros (y & Hy & E). apply String.eqb_eq in E. now subst.
  - intros H. exists x. split; [exact H | apply String.eqb_refl].
Qed.

Lemma filter_nil_iff {A} (p : A -> bool) (xs : list A) :
  filter p xs = [] <-> forall x, In x xs -> p x = false.
Proof.
  induction xs as [|a xs IH]; simpl.
  - split; [intros _ x [] | reflexivity].
  - destruct (p a) eqn:Pa; split.
    + discriminate.
    + intros H. specialize (H a (or_introl eq_refl)). congruence.
    + intros E x [<- | Hx]; [exact Pa | now apply IH].
    + intros H. apply IH. intros x Hx. apply H. now right.
Qed.

(** A loop whose body only makes one call per element makes exactly those
    calls, in order, and falls through. *)
Lemma forOf_emit {St Ev A} (f : A -> Ev) (xs : list A) (s : St) :
  forOf xs (fun x => emit (f x)) s = Outcome (map f xs) s (Normal tt).
Proof.
  induction xs as [|x xs IH]; simpl.
  - reflexivity.
  - unfold bind at 1. simpl. now rewrite IH.
Qed.

Lemma handledRooms_map (rooms : list string) :
  Admin.handledRooms (map Admin.HandleAdminRoom rooms) = rooms.
Proof.
  induction rooms as [|r rooms IH]; simpl; [reflexivity | now rewrite IH].
Qed.

(** ** The admin socket *)

Lemma listen_outcome (ext : Admin.Externals) (remote : string)
      (authorized roomIds : list string) :
  Admin.listen ext remote authorized roomIds tt =
  match filter (fun r => negb (Js.includes authorized r)) roomIds with
  | [] => Outcome (map Admin.HandleAdminRoom roomIds) tt (Normal tt)
  | bad => Outcome (refusal ext remote bad) tt Returned
  end.
Proof.
  unfold Admin.listen.
  destruct (filter _ roomIds) as [|b bad] eqn:F.
  - unfold bind at 1. simpl. now rewrite forOf_emit.
  - reflexivity.
Qed.

(** C1. A ["listen"] request with a verified token is all or nothing: as
    soon as one room of the request is outside the token's allow-list, the
    sender is notified, the connection is closed with code 1008 and
    [handleAdminRoom] is invoked for no room; when every room is in the
    allow-list, [handleAdminRoom] is invoked for each room of the request,
    in order, and the connection is not closed. *)
Theorem listen_all_or_nothing (ext : Admin.Externals) (remote jwt : string)
        (roomIds : list string) (tokenData : Admin.AdminSocketTokenData) :
  Admin.verifyAdminSocketToken ext jwt = inr tokenData ->
  let authorized := Admin.authorizedRoomIds tokenData in
  let t := Admin.run ext remote (Admin.WellFormed (Admin.Listen jwt roomIds)) in
  ((exists r, In r roomIds /\ ~ In r authorized) ->
   (exists errorMessage before,
       t = before ++ [Admin.WsSendError errorMessage;
                      Admin.WsEnd 1008 "Access refused"]
       /\ Admin.handledRooms before = [])
   /\ Admin.handledRooms t = []
   /\ forall r, ~ In (Admin.HandleAdminRoom r) t)
  /\ ((forall r, In r roomIds -> In r authorized) ->
      t = map Admin.HandleAdminRoom roomIds
      /\ Admin.handledRooms t = roomIds).
Proof.
  intros V authorized t.
  assert (Ht : t = calls (Admin.listen ext remote authorized roomIds tt)).
  { subst t authorized. unfold Admin.run, Admin.onMessage, tryCatch. simpl.
    rewrite V. unfold bind at 1. simpl. rewrite listen_outcome.
    destruct (filter _ roomIds); reflexivity. }
  rewrite listen_outcome in Ht. clearbody t.
  split.
  - intros (r & Hr & Hn).
    destruct (filter _ roomIds) as [|b bad] eqn:F.
    + exfalso. rewrite filter_nil_iff in F. specialize (F r Hr).
      apply negb_false_iff, includes_In in F. contradiction.
    + subst t. simpl. split; [|split].
      * eexists. eexists [_; _]. split; reflexivity.
      * reflexivity.
      * intros r' [E | [E | [E | [E | []]]]]; discriminate.
  - intros Hall.
    destruct (filter _ roomIds) as [|b bad] eqn:F.
    + subst t. simpl. split; [reflexivity | apply handledRooms_map].
    + exfalso.
      assert (Hb : In b (filter (fun r => negb (Js.includes authorized r)) roomIds))
        by (rewrite F; now left).
      apply filter_In in Hb. destruct Hb as [Hb Hp].
      apply negb_true_iff in Hp.
      apply Hall, includes_In in Hb. congruence.
Qed.

Lemma listen_all_or_nothing_witness :
  Admin.handledRooms
    (Admin.run ext0 "10.0.0.1" (Admin.WellFormed (Admin.Listen "jwt" ["a"; "c"]))) = []
  /\ Admin.handledRooms
       (Admin.run ext0 "10.0.0.1" (Admin.WellFormed (Admin.Listen "jwt" ["b"; "a"])))
     = ["b"; "a"].
Proof.
  split.
  - apply (proj1 (listen_all_or_nothing ext0 "10.0.0.1" "jwt" ["a"; "c"]
                    {| Admin.authorizedRoomIds := ["a"; "b"] |} eq_refl)).
    exists "c". split.
    + simpl. auto.
    + simpl. intros [E | [E | []]]; discriminate.
  - apply (proj2 (listen_all_or_nothing ext0 "10.0.0.1" "jwt" ["b"; "a"]
                    {| Admin.authorizedRoomIds := ["a"; "b"] |} eq_refl)).
    simpl. intros r [<- | [<- | []]]; auto.
Defined.

(** ** The upgrade *)

Ltac unfold_upgrade :=
  unfold upgradeCalls, upgrade, attempt, commit, validateTextures, fetch,
    onLookupError, onAccessDenied, onFailure, verifyToken, checkVersion, await,
    returnIfAborted, resUpgrade, tryCatch, bind, when, call, emit, exit,
    throw, ret, get, put in *.

Ltac split_case :=
  match goal with
  | |- context [match ?x with _ => _ end] =>
      lazymatch x with
      | context [match _ with _ => _ end] => fail
      | _ => destruct x eqn:?
      end
  end.

Ltac run_upgrade := unfold_upgrade; repeat (cbn in *; try split_case).

(** C2. If [res.onAborted] has fired by the time the awaited member-data
    lookup answers (by returning or by throwing), the upgrade that started
    that lookup never calls [res.upgrade]: neither with the session seed nor
    with any rejection. *)
Theorem aborted_handshake_never_upgrades
        (cfg : Config) (ext : Externals) (req : Headers) (run : Room.Run)
        (validated : option Query.t) :
  onAbortedFired run = true ->
  lookups (upgradeCalls cfg ext req run validated) <> [] ->
  upgrades (upgradeCalls cfg ext req run validated) = [].
Proof.
  intros A.
  run_upgrade; intros L; try reflexivity; try congruence.
Qed.

(** ** Rejected sockets *)

Lemma errorMessageFor_isErrorMessage (cfg : Config) (ws : UpgradeFailedData) :
  isErrorMessage (errorMessageFor cfg ws) = true.
Proof.
  unfold errorMessageFor.
  destruct (strictEq _ _); [reflexivity|].
  destruct ws as [r m s rid | s e | []]; reflexivity.
Qed.

(** What [open] does with a rejection, whatever its shape. *)
Lemma opened_rejected (cfg : Config) (run : RoomOpen.Run) (ws : UpgradeFailedData) :
  opened cfg run (inr ws) =
  Outcome
    ((if Js.truthyOpt (roomIdOf ws)
      then [DeleteRoomIfEmptyFromId (Js.nullish (roomIdOf ws) "")] else [])
       ++ [errorMessageFor cfg ws; WsEnd 1000 "Error message sent"])
    None Returned.
Proof.
  unfold opened, open, rejected, errorMessageFor, tryCatch, bind, when.
  destruct (Js.truthyOpt (roomIdOf ws));
    destruct (strictEq _ _); cbn; try reflexivity;
    destruct ws as [r m s rid | s e | []]; reflexivity.
Qed.

Lemma closeCodes_app (a b : list RoomOpen.Event) :
  closeCodes (a ++ b) = closeCodes a ++ closeCodes b.
Proof. unfold closeCodes. apply flat_map_app. Qed.

Lemma joins_app (a b : list RoomOpen.Event) : joins (a ++ b) = joins a ++ joins b.
Proof. unfold joins. apply flat_map_app. Qed.

(** No session comes out of a rejection: [initClient] has not run and
    [handleJoinRoom] is not called; the socket is closed once, with 1000. *)
Lemma rejected_no_session (cfg : Config) (run : RoomOpen.Run)
      (ws : UpgradeFailedData) :
  final (opened cfg run (inr ws)) = None
  /\ joins (calls (opened cfg run (inr ws))) = []
  /\ closeCodes (calls (opened cfg run (inr ws))) = [1000%Z].
Proof.
  rewrite opened_rejected. cbn [final calls].
  rewrite joins_app, closeCodes_app.
  pose proof (errorMessageFor_isErrorMessage cfg ws) as E.
  destruct (Js.truthyOpt (roomIdOf ws)); cbn;
    destruct (errorMessageFor cfg ws); try discriminate E; auto.
Qed.

(** C4. An upgrade request whose [version] is not the server's
    [apiVersionHash] gets exactly one [res.upgrade], with the rejection of
    reason ["error"] and status 419 whose payload is of type ["retry"] and
    can be retried by hand; when the socket opens on that rejection the error
    screen is sent, the socket is closed, [initClient] has not run and
    [handleJoinRoom] is not called. *)
Theorem version_mismatch_rejected
        (cfg : Config) (ext : Externals) (req : Headers) (run : Room.Run)
        (query : Query.t) (orun : RoomOpen.Run) :
  Query.version query <> apiVersionHash cfg ->
  exists payload,
    upgrades (upgradeCalls cfg ext req run (Some query))
      = [inr (UpgradeFailedErrorData 419 payload)]
    /\ lookups (upgradeCalls cfg ext req run (Some query)) = []
    /\ reasonOf (UpgradeFailedErrorData 419 payload) = Some ReasonError
    /\ field payload "type" = Some (JString "retry")
    /\ field payload "canRetryManual" = Some (JBool true)
    /\ calls (opened cfg orun (inr (UpgradeFailedErrorData 419 payload)))
       = [EmitErrorScreenMessage payload; WsEnd 1000 "Error message sent"]
    /\ final (opened cfg orun (inr (UpgradeFailedErrorData 419 payload))) = None
    /\ joins (calls (opened cfg orun (inr (UpgradeFailedErrorData 419 payload)))) = [].
Proof.
  intros V. apply String.eqb_neq in V.
  eexists. split; [|split].
  - unfold upgradeCalls, upgrade, attempt, checkVersion, tryCatch.
    unfold bind at 1. rewrite V. reflexivity.
  - unfold upgradeCalls, upgrade, attempt, checkVersion, tryCatch.
    unfold bind at 1. rewrite V. reflexivity.
  - repeat split; try reflexivity.
    + rewrite opened_rejected. cbn. unfold errorMessageFor. cbn.
      destruct (tokenInvalidException cfg) as [[]|]; reflexivity.
    + apply rejected_no_session.
    + apply rejected_no_session.
Qed.

(** C5, as the handler has it. When the socket opens on a rejection,
    whatever its reason, the handler sends the error message selected by the
    reason and closes the socket at once, always with close code 1000; the
    close is its last call, [initClient] has not run and [handleJoinRoom] is
    not called. *)
Theorem rejected_socket_closed_with_1000
        (cfg : Config) (orun : RoomOpen.Run) (ws : UpgradeFailedData) :
  (exists before,
      calls (opened cfg orun (inr ws))
        = before ++ [errorMessageFor cfg ws; WsEnd 1000 "Error message sent"]
      /\ isErrorMessage (errorMessageFor cfg ws) = true
      /\ closeCodes before = [] /\ joins before = [])
  /\ closeCodes (calls (opened cfg orun (inr ws))) = [1000%Z]
  /\ how (opened cfg orun (inr ws)) = Returned
  /\ final (opened cfg orun (inr ws)) = None
  /\ joins (calls (opened cfg orun (inr ws))) = [].
Proof.
  pose proof (rejected_no_session cfg orun ws) as (F & J & C).
  repeat split; try assumption.
  - rewrite opened_rejected. cbn [calls]. eexists. split; [reflexivity|].
    split; [apply errorMessageFor_isErrorMessage|].
    destruct (Js.truthyOpt (roomIdOf ws)); split; reflexivity.
  - now rewrite opened_rejected.
Qed.

(** ** Runs of the concrete deployment *)

Lemma aborted_handshake_never_upgrades_witness :
  lookups (upgradeCalls cfg0 extFound req0 runAborted (Some query0)) <> []
  /\ upgrades (upgradeCalls cfg0 extFound req0 runAborted (Some query0)) = []
  /\ upgrades (upgradeCalls cfg0 extRefused req0 runAborted (Some query0)) = []
  /\ upgrades (upgradeCalls cfg0 extFound req0 runLive (Some query0)) <> [].
Proof.
  split; [vm_compute; discriminate|].
  split; [|split].
  - apply aborted_handshake_never_upgrades; [reflexivity | vm_compute; discriminate].
  - apply aborted_handshake_never_upgrades; [reflexivity | vm_compute; discriminate].
  - vm_compute. discriminate.
Defined.

Lemma version_mismatch_rejected_witness :
  exists payload,
    upgrades (upgradeCalls cfg0 extFound req0 runLive
                (Some (queryWith "v1" (Some "tok") (inl "male1") None)))
    = [inr (UpgradeFailedErrorData 419 payload)]
    /\ joins (calls (opened cfg0 orun0 (inr (UpgradeFailedErrorData 419 payload)))) = [].
Proof.
  destruct (version_mismatch_rejected cfg0 extFound req0 runLive
              (queryWith "v1" (Some "tok") (inl "male1") None) orun0)
    as (payload & U & _ & _ & _ & _ & _ & _ & J).
  - simpl. discriminate.
  - exists payload. split; assumption.
Defined.

(** C5, as the claim has it, fails: the close code does not depend on the
    rejection reason.  Rejections of the five reasons (["tokenInvalid"],
    ["invalidVersion"], ["error"], ["invalidTexture"] and [null]) are all
    closed with the same code, 1000. *)
Lemma close_code_ignores_reason :
  map reasonOf
      [ UpgradeFailedInvalidData (Some tokenInvalid) (Some "jwt expired") 401 "";
        UpgradeFailedInvalidData (Some invalidVersion) None 400 "";
        newVersion;
        UpgradeFailedInvalidTexture character;
        UpgradeFailedInvalidData None (Some "500 Internal Server Error") 500 "" ]
  = [ Some ReasonTokenInvalid; Some ReasonInvalidVersion; Some ReasonError;
      Some ReasonInvalidTexture; None ]
  /\ map (fun ws => closeCodes (calls (opened cfg0 orun0 (inr ws))))
         [ UpgradeFailedInvalidData (Some tokenInvalid) (Some "jwt expired") 401 "";
           UpgradeFailedInvalidData (Some invalidVersion) None 400 "";
           newVersion;
           UpgradeFailedInvalidTexture character;
           UpgradeFailedInvalidData None (Some "500 Internal Server Error") 500 "" ]
     = [ [1000%Z]; [1000%Z]; [1000%Z]; [1000%Z]; [1000%Z] ].
Proof. split; reflexivity. Qed.

(** ** The upgrade around the lookup *)

(** An upgrade that starts the lookup starts it once, and what it does next
    is [afterLookup] run with the abort flag as the suspension left it. *)
Lemma upgrade_reaches_lookup (cfg : Config) (ext : Externals) (req : Headers)
      (run : Room.Run) (query : Query.t) :
  lookups (upgradeCalls cfg ext req run (Some query)) <> [] ->
  exists tokenData,
    upgradeCalls cfg ext req run (Some query)
    = FetchMemberDataByUuid (lookupArgs req query tokenData)
        :: calls (afterLookup cfg ext req run query tokenData
                    (fetchMemberDataByUuid ext (lookupArgs req query tokenData))
                    (onAbortedFired run)).
Proof.
  intros L.
  exists (match Query.token query with
          | Some token =>
              if Js.truthy token
              then match verifyJWTToken ext token with
                   | inr d => Some d
                   | inl _ => None
                   end
              else None
          | None => None
          end).
  revert L. unfold afterLookup.
  run_upgrade; intros L; try reflexivity; try (exfalso; apply L; reflexivity).
Qed.

Lemma upgrades_cons_fetch (args : Lookup.t) (t : list UpgradeEvent) :
  upgrades (FetchMemberDataByUuid args :: t) = upgrades t.
Proof. reflexivity. Qed.

Ltac unfold_after :=
  unfold afterLookup, commit, validateTextures, onLookupError, onAccessDenied,
    onFailure, returnIfAborted, resUpgrade, tryCatch, bind, when, call, emit,
    exit, throw, ret, get, put in *.

Ltac run_after := unfold_after; repeat (cbn in *; try split_case).

(** After the suspension the handler does not start another lookup. *)
Lemma afterLookup_no_lookup (cfg : Config) (ext : Externals) (req : Headers)
      (run : Room.Run) (query : Query.t) (tokenData : option TokenData.t)
      (answer : Exception + MemberData.t) (aborted : bool) :
  lookups (calls (afterLookup cfg ext req run query tokenData answer aborted)) = [].
Proof. run_after; reflexivity. Qed.

(** The upgrade seen from its one lookup. *)
Lemma upgrade_with_lookup (cfg : Config) (ext : Externals) (req : Headers)
      (run : Room.Run) (query : Query.t) (args : Lookup.t) :
  lookups (upgradeCalls cfg ext req run (Some query)) = [args] ->
  exists tokenData,
    args = lookupArgs req query tokenData
    /\ upgrades (upgradeCalls cfg ext req run (Some query))
       = upgrades (calls (afterLookup cfg ext req run query tokenData
                            (fetchMemberDataByUuid ext args)
                            (onAbortedFired run))).
Proof.
  intros L.
  destruct (upgrade_reaches_lookup cfg ext req run query) as (tokenData & E).
  - rewrite L. discriminate.
  - exists tokenData. rewrite E in L. cbn in L.
    rewrite afterLookup_no_lookup in L. injection L as <-.
    split; [reflexivity|]. rewrite E. apply upgrades_cons_fetch.
Qed.

(** The answer to a transport error, by the state of the abort flag. *)
Lemma afterLookup_axios (cfg : Config) (ext : Externals) (req : Headers)
      (run : Room.Run) (query : Query.t) (tokenData : option TokenData.t)
      (m : string) (response : option AxiosResponse) (aborted : bool) :
  upgrades (calls (afterLookup cfg ext req run query tokenData
                     (inl (AxiosError m response)) aborted))
  = if aborted then []
    else match ErrorApiData_safeParse ext (responseBody (AxiosError m response)) with
         | Some payload =>
             [inr (UpgradeFailedErrorData
                     (Js.orNum (responseStatus (AxiosError m response)) 500) payload)]
         | None =>
             [inr (UpgradeFailedInvalidData
                     None (responseBody (AxiosError m response)) 500
                     (Query.roomId query))]
         end.
Proof.
  unfold_after. cbn [isAxiosError].
  destruct (ErrorApiData_safeParse ext _); destruct aborted; reflexivity.
Qed.

(** C6, as the handler has it. When the awaited lookup throws an axios
    error: if the client went away during the lookup nothing is sent;
    otherwise, a body that parses as [ErrorApiData] gives the rejection of
    reason ["error"] with the provider's status (500 when the status is
    absent, [||] counting 0 as absent) and the parsed payload, and a body
    that does not parse gives the rejection of reason [null] and status
    500. *)
Theorem lookup_transport_error_mapping
        (cfg : Config) (ext : Externals) (req : Headers) (run : Room.Run)
        (query : Query.t) (args : Lookup.t)
        (m : string) (response : option AxiosResponse) :
  lookups (upgradeCalls cfg ext req run (Some query)) = [args] ->
  fetchMemberDataByUuid ext args = inl (AxiosError m response) ->
  let err := AxiosError m response in
  let sent := upgrades (upgradeCalls cfg ext req run (Some query)) in
  (onAbortedFired run = true -> sent = [])
  /\ (onAbortedFired run = false ->
      forall payload,
        ErrorApiData_safeParse ext (responseBody err) = Some payload ->
        sent = [inr (UpgradeFailedErrorData (Js.orNum (responseStatus err) 500) payload)]
        /\ reasonOf (UpgradeFailedErrorData (Js.orNum (responseStatus err) 500) payload)
           = Some ReasonError)
  /\ (onAbortedFired run = false ->
      ErrorApiData_safeParse ext (responseBody err) = None ->
      sent = [inr (UpgradeFailedInvalidData None (responseBody err) 500
                                            (Query.roomId query))]
      /\ reasonOf (UpgradeFailedInvalidData None (responseBody err) 500
                                            (Query.roomId query)) = None).
Proof.
  intros L F err sent.
  destruct (upgrade_with_lookup cfg ext req run query args L) as (tokenData & _ & E).
  subst sent. rewrite E, F, afterLookup_axios. fold err.
  split; [|split].
  - intros ->. reflexivity.
  - intros A payload P. rewrite A, P. split; reflexivity.
  - intros A P. rewrite A, P. split; reflexivity.
Qed.

Lemma lookup_transport_error_mapping_witness :
  upgrades (upgradeCalls cfg0 extRefused req0 runLive (Some query0))
    = [inr (UpgradeFailedErrorData 403 typedPayload)]
  /\ upgrades (upgradeCalls cfg0 extBroken req0 runLive (Some query0))
     = [inr (UpgradeFailedInvalidData None (Some "<html>") 500
               "/_/global/maps.test/room.json")].
Proof.
  split.
  - apply (lookup_transport_error_mapping cfg0 extRefused req0 runLive query0
             (lookupArgs req0 query0 tokenData0)
             "Request failed with status code 403"
             (Some {| status := 403; data := Some "typed" |})
             eq_refl eq_refl);
      reflexivity.
  - apply (lookup_transport_error_mapping cfg0 extBroken req0 runLive query0
             (lookupArgs req0 query0 tokenData0)
             "Request failed with status code 502"
             (Some {| status := 502; data := Some "<html>" |})
             eq_refl eq_refl);
      reflexivity.
Defined.

(** C6, as the claim has it, fails: the client goes away while the lookup
    is awaited, the lookup then throws an axios error whose body parses as
    [ErrorApiData] (or one whose body does not), and no rejection is
    sent. *)
Lemma aborted_lookup_failure_sends_nothing :
  (lookups (upgradeCalls cfg0 extRefused req0 runAborted (Some query0))
     = [lookupArgs req0 query0 tokenData0]
   /\ fetchMemberDataByUuid extRefused (lookupArgs req0 query0 tokenData0)
      = inl (AxiosError "Request failed with status code 403"
               (Some {| status := 403; data := Some "typed" |}))
   /\ ErrorApiData_safeParse extRefused (Some "typed") = Some typedPayload
   /\ upgrades (upgradeCalls cfg0 extRefused req0 runAborted (Some query0)) = [])
  /\ (lookups (upgradeCalls cfg0 extBroken req0 runAborted (Some query0))
        = [lookupArgs req0 query0 tokenData0]
      /\ fetchMemberDataByUuid extBroken (lookupArgs req0 query0 tokenData0)
         = inl (AxiosError "Request failed with status code 502"
                  (Some {| status := 502; data := Some "<html>" |}))
      /\ ErrorApiData_safeParse extBroken (Some "<html>") = None
      /\ upgrades (upgradeCalls cfg0 extBroken req0 runAborted (Some query0)) = []).
Proof. repeat split; reflexivity. Qed.

(** ** Anonymous connections *)

(** C7, as the handler has it. With anonymous connections disabled, an
    upgrade request of the server's version that carries no bearer token
    (none, or an empty one) is answered by one [res.upgrade]: the rejection
    of status 401 whose reason is [null] and whose message is
    ["Expecting token"]; no lookup is started, and when the socket opens on
    that rejection [initClient] has not run and [handleJoinRoom] is not
    called. *)
Theorem anonymous_refused
        (cfg : Config) (ext : Externals) (req : Headers) (run : Room.Run)
        (query : Query.t) (orun : RoomOpen.Run) :
  Query.version query = apiVersionHash cfg ->
  Js.truthyOpt (Query.token query) = false ->
  DISABLE_ANONYMOUS cfg = true ->
  let refusal := UpgradeFailedInvalidData None (Some "Expecting token") 401
                                          (Query.roomId query) in
  upgrades (upgradeCalls cfg ext req run (Some query)) = [inr refusal]
  /\ statusOf refusal = Some 401%Z
  /\ reasonOf refusal = None
  /\ lookups (upgradeCalls cfg ext req run (Some query)) = []
  /\ final (opened cfg orun (inr refusal)) = None
  /\ joins (calls (opened cfg orun (inr refusal))) = [].
Proof.
  intros V T D refusal.
  assert (E : upgradeCalls cfg ext req run (Some query)
              = [ Room.SentryCapture (Caught (Error "Expecting token"));
                  Room.ConsoleError (Caught (Error "Expecting token"));
                  ResUpgrade (inr refusal) (websocketKey req)
                             (websocketProtocol req) (websocketExtensions req) ]).
  { apply String.eqb_eq in V.
    unfold upgradeCalls, upgrade, attempt, checkVersion, verifyToken, tryCatch.
    unfold bind at 1. rewrite V. cbn [negb when ret].
    unfold Js.truthyOpt in T.
    destruct (Query.token query) as [token|]; [rewrite T|];
      unfold bind; cbn; rewrite D; reflexivity. }
  rewrite E. repeat split; try reflexivity; apply rejected_no_session.
Qed.

Lemma anonymous_refused_witness :
  upgrades (upgradeCalls cfgClosed extFound req0 runLive
              (Some (queryWith "v2" None (inl "male1") None)))
  = [inr (UpgradeFailedInvalidData None (Some "Expecting token") 401
            "/_/global/maps.test/room.json")].
Proof.
  apply (anonymous_refused cfgClosed extFound req0 runLive
           (queryWith "v2" None (inl "male1") None) orun0);
    reflexivity.
Defined.

(** C7, as the claim has it, fails twice: the rejection of a tokenless
    request carries no reason tag (its [reason] is [null]), and a tokenless
    request of another version is rejected with status 419, not 401. *)
Lemma anonymous_refusal_has_no_reason_tag :
  (exists refusal,
      upgrades (upgradeCalls cfgClosed extFound req0 runLive
                  (Some (queryWith "v2" None (inl "male1") None)))
      = [inr refusal]
      /\ reasonOf refusal = None)
  /\ (exists refusal,
         upgrades (upgradeCalls cfgClosed extFound req0 runLive
                     (Some (queryWith "v1" None (inl "male1") None)))
         = [inr refusal]
         /\ statusOf refusal = Some 419%Z
         /\ reasonOf refusal = Some ReasonError).
Proof. split; eexists; repeat split; reflexivity. Qed.

(** ** Texture validation and the session seed *)

Lemma chatCredentials_textures (cfg : Config) (ext : Externals) (run : Room.Run)
      (tokenData : option TokenData.t) (fetched : MemberData.t) :
  MemberData.characterTextures (chatCredentials cfg ext run tokenData fetched)
    = MemberData.characterTextures fetched
  /\ MemberData.companionTexture (chatCredentials cfg ext run tokenData fetched)
     = MemberData.companionTexture fetched.
Proof.
  unfold chatCredentials.
  destruct (negb _); [destruct (Js.truthyOpt _)|]; split; reflexivity.
Qed.

(** What is sent once the lookup has answered with member data. *)
Lemma afterLookup_found (cfg : Config) (ext : Externals) (req : Headers)
      (run : Room.Run) (query : Query.t) (tokenData : option TokenData.t)
      (fetched : MemberData.t) (aborted : bool) :
  upgrades (calls (afterLookup cfg ext req run query tokenData (inr fetched) aborted))
  = if aborted then []
    else if negb (Nat.eqb (length (characterTextureIds query))
                          (length (MemberData.characterTextures fetched)))
    then [inr (UpgradeFailedInvalidTexture character)]
    else if Js.truthyOpt (Query.companionTextureId query)
            && negb (isSome (MemberData.companionTexture fetched))
    then [inr (UpgradeFailedInvalidTexture companion)]
    else [inl (responseData ext req query tokenData
                 (chatCredentials cfg ext run tokenData fetched))].
Proof.
  destruct (chatCredentials_textures cfg ext run tokenData fetched) as (Ec & Ep).
  unfold_after. cbn.
  destruct aborted; [reflexivity|]. cbn.
  rewrite Ec, Ep.
  destruct (negb (Nat.eqb _ _)); [reflexivity|]. cbn.
  destruct (Js.truthyOpt _ && negb _); reflexivity.
Qed.

(** C8. An upgrade whose lookup answered and that was
    not aborted reaches the texture checks; there, a number of resolved
    character textures that differs from the number of requested ids gives
    the rejection ["invalidTexture"] of entity ["character"]; equal numbers
    with a companion id requested (present and not empty) and no companion
    texture resolved give ["invalidTexture"] of entity ["companion"]; in
    every other case the session seed is sent and no rejection is. *)
Theorem texture_validation
        (cfg : Config) (ext : Externals) (req : Headers) (run : Room.Run)
        (query : Query.t) (args : Lookup.t) (fetched : MemberData.t) :
  lookups (upgradeCalls cfg ext req run (Some query)) = [args] ->
  fetchMemberDataByUuid ext args = inr fetched ->
  onAbortedFired run = false ->
  let sent := upgrades (upgradeCalls cfg ext req run (Some query)) in
  let requested := length (characterTextureIds query) in
  let resolved := length (MemberData.characterTextures fetched) in
  (requested <> resolved -> sent = [inr (UpgradeFailedInvalidTexture character)])
  /\ (requested = resolved ->
      Js.truthyOpt (Query.companionTextureId query) = true ->
      MemberData.companionTexture fetched = None ->
      sent = [inr (UpgradeFailedInvalidTexture companion)])
  /\ (requested = resolved ->
      Js.truthyOpt (Query.companionTextureId query) = false
      \/ MemberData.companionTexture fetched <> None ->
      exists seed, sent = [inl seed]).
Proof.
  intros L F A sent requested resolved.
  destruct (upgrade_with_lookup cfg ext req run query args L) as (tokenData & _ & E).
  subst sent. rewrite E, F, afterLookup_found, A. fold requested resolved.
  split; [|split].
  - intros N. apply Nat.eqb_neq in N. now rewrite N.
  - intros Q T P. apply Nat.eqb_eq in Q. rewrite Q, T, P. reflexivity.
  - intros Q C. apply Nat.eqb_eq in Q. rewrite Q. cbn [negb].
    destruct C as [C | C].
    + rewrite C. cbn. eauto.
    + destruct (MemberData.companionTexture fetched); [|contradiction].
      rewrite andb_false_r. eauto.
Qed.

Lemma texture_validation_witness :
  upgrades (upgradeCalls cfg0 extNoTexture req0 runLive
              (Some (queryWith "v2" (Some "tok") (inl "male1") None)))
    = [inr (UpgradeFailedInvalidTexture character)]
  /\ upgrades (upgradeCalls cfg0 extNoTexture req0 runLive
                 (Some (queryWith "v2" (Some "tok") (inr []) (Some "cat"))))
     = [inr (UpgradeFailedInvalidTexture companion)]
  /\ exists seed,
       upgrades (upgradeCalls cfg0 extFound req0 runLive (Some query0)) = [inl seed].
Proof.
  split; [|split].
  - apply (texture_validation cfg0 extNoTexture req0 runLive
             (queryWith "v2" (Some "tok") (inl "male1") None)
             (lookupArgs req0 (queryWith "v2" (Some "tok") (inl "male1") None)
                         tokenData0)
             _ eq_refl eq_refl eq_refl).
    simpl. discriminate.
  - apply (texture_validation cfg0 extNoTexture req0 runLive
             (queryWith "v2" (Some "tok") (inr []) (Some "cat"))
             (lookupArgs req0 (queryWith "v2" (Some "tok") (inr []) (Some "cat"))
                         tokenData0)
             _ eq_refl eq_refl eq_refl);
      reflexivity.
  - apply (texture_validation cfg0 extFound req0 runLive query0
             (lookupArgs req0 query0 tokenData0)
             _ eq_refl eq_refl eq_refl).
    + reflexivity.
    + left. reflexivity.
Defined.

(** The two checks are made in this order: with one character texture
    requested and none resolved, and a companion requested and none
    resolved, the rejection names the character. *)
Lemma character_check_comes_first :
  Js.truthyOpt (Query.companionTextureId
                  (queryWith "v2" (Some "tok") (inl "male1") (Some "cat"))) = true
  /\ (exists fetched,
         fetchMemberDataByUuid extNoTexture
           (lookupArgs req0 (queryWith "v2" (Some "tok") (inl "male1") (Some "cat"))
                       tokenData0) = inr fetched
         /\ MemberData.companionTexture fetched = None
         /\ MemberData.characterTextures fetched = [])
  /\ lookups (upgradeCalls cfg0 extNoTexture req0 runLive
                (Some (queryWith "v2" (Some "tok") (inl "male1") (Some "cat"))))
     = [lookupArgs req0 (queryWith "v2" (Some "tok") (inl "male1") (Some "cat"))
                   tokenData0]
  /\ upgrades (upgradeCalls cfg0 extNoTexture req0 runLive
                 (Some (queryWith "v2" (Some "tok") (inl "male1") (Some "cat"))))
     = [inr (UpgradeFailedInvalidTexture character)]
  /\ upgrades (upgradeCalls cfg0 extNoTexture req0 runLive
                 (Some (queryWith "v2" (Some "tok") (inl "male1") (Some "cat"))))
     <> [inr (UpgradeFailedInvalidTexture companion)].
Proof.
  split; [reflexivity|]. split; [eexists; repeat split; reflexivity|].
  split; [reflexivity|]. split; [reflexivity|]. vm_compute. discriminate.
Qed.

(** A session seed is only ever sent after the lookup. *)
Lemma seed_needs_lookup (cfg : Config) (ext : Externals) (req : Headers)
      (run : Room.Run) (query : Query.t) (seed : UpgradeData.t) :
  In (inl seed) (upgrades (upgradeCalls cfg ext req run (Some query))) ->
  lookups (upgradeCalls cfg ext req run (Some query)) <> [].
Proof.
  run_upgrade; intros H; try discriminate;
    repeat (destruct H as [H | H]; try discriminate H); try contradiction.
Qed.

(** A lookup that throws never leads to a session seed. *)
Lemma afterLookup_failed (cfg : Config) (ext : Externals) (req : Headers)
      (run : Room.Run) (query : Query.t) (tokenData : option TokenData.t)
      (e : Exception) (aborted : bool) (seed : UpgradeData.t) :
  ~ In (inl seed)
       (upgrades (calls (afterLookup cfg ext req run query tokenData (inl e) aborted))).
Proof.
  run_after; intros H;
    repeat (destruct H as [H | H]; try discriminate H); try contradiction.
Qed.

(** The seed of an accepted upgrade is [responseData] of what the lookup
    answered, with the chat credentials set. *)
Lemma accepted_seed (cfg : Config) (ext : Externals) (req : Headers)
      (run : Room.Run) (query : Query.t) (seed : UpgradeData.t) :
  In (inl seed) (upgrades (upgradeCalls cfg ext req run (Some query))) ->
  exists tokenData fetched,
    lookups (upgradeCalls cfg ext req run (Some query))
      = [lookupArgs req query tokenData]
    /\ fetchMemberDataByUuid ext (lookupArgs req query tokenData) = inr fetched
    /\ seed = responseData ext req query tokenData
                (chatCredentials cfg ext run tokenData fetched).
Proof.
  intros H.
  destruct (upgrade_reaches_lookup cfg ext req run query
              (seed_needs_lookup _ _ _ _ _ _ H)) as (tokenData & E).
  exists tokenData. rewrite E in H |- *. rewrite upgrades_cons_fetch in H.
  cbn [lookups flat_map app]. fold (lookups (calls
    (afterLookup cfg ext req run query tokenData
       (fetchMemberDataByUuid ext (lookupArgs req query tokenData))
       (onAbortedFired run)))).
  rewrite afterLookup_no_lookup.
  destruct (fetchMemberDataByUuid ext (lookupArgs req query tokenData))
    as [e | fetched].
  - exfalso. exact (afterLookup_failed _ _ _ _ _ _ _ _ _ H).
  - exists fetched. split; [reflexivity|]. split; [reflexivity|].
    rewrite afterLookup_found in H.
    destruct (onAbortedFired run); [contradiction|].
    destruct (negb (Nat.eqb _ _));
      [destruct H as [H | []]; discriminate H|].
    destruct (Js.truthyOpt _ && negb _);
      destruct H as [H | []]; [discriminate H|].
    now injection H as <-.
Qed.

(** C9. In the seed of every accepted upgrade: when the lookup supplied no
    chat identity ([jabberId] absent or empty), [jabberId] is the one the
    gateway creates from the user identifier, [EJABBERD_DOMAIN] and the fresh
    [uuid()], and [jabberPassword] is the credential signed with
    [EJABBERD_JWT_SECRET] for one day when that secret is set, the
    placeholder ["no_password_set"] when it is not; when the lookup supplied
    a [jabberId], the seed has it with ["/"] and the fresh [uuid()] appended
    and keeps the password of the lookup. *)
Theorem chat_credentials_fabricated
        (cfg : Config) (ext : Externals) (req : Headers) (run : Room.Run)
        (query : Query.t) (seed : UpgradeData.t) :
  In (inl seed) (upgrades (upgradeCalls cfg ext req run (Some query))) ->
  exists args fetched,
    lookups (upgradeCalls cfg ext req run (Some query)) = [args]
    /\ fetchMemberDataByUuid ext args = inr fetched
    /\ UpgradeData.userJid seed = UpgradeData.jabberId seed
    /\ (Js.truthyOpt (MemberData.jabberId fetched) = false ->
        let created := JID_create ext (UpgradeData.userIdentifier seed)
                                  (EJABBERD_DOMAIN cfg) (uuid run) in
        UpgradeData.jabberId seed = Some created
        /\ (forall secret,
               EJABBERD_JWT_SECRET cfg = Some secret -> Js.truthy secret = true ->
               UpgradeData.jabberPassword seed
               = Some (Jwt_sign ext created secret "1d" "HS256"))
        /\ (Js.truthyOpt (EJABBERD_JWT_SECRET cfg) = false ->
            UpgradeData.jabberPassword seed = Some "no_password_set"))
    /\ (forall supplied,
           MemberData.jabberId fetched = Some supplied ->
           Js.truthy supplied = true ->
           UpgradeData.jabberId seed = Some (supplied ++ "/" ++ uuid run)%string
           /\ UpgradeData.jabberPassword seed = MemberData.jabberPassword fetched).
Proof.
  intros H.
  destruct (accepted_seed cfg ext req run query seed H)
    as (tokenData & fetched & L & F & ->).
  exists (lookupArgs req query tokenData), fetched.
  split; [exact L|]. split; [exact F|]. split; [reflexivity|].
  unfold chatCredentials. split.
  - intros A. rewrite A. cbn [negb]. split; [|split].
    + destruct (Js.truthyOpt (EJABBERD_JWT_SECRET cfg)); reflexivity.
    + intros secret S T. rewrite S. cbn. rewrite T. reflexivity.
    + intros S. rewrite S. reflexivity.
  - intros supplied S T. rewrite S. cbn. rewrite T. cbn. split; reflexivity.
Qed.

Lemma chat_credentials_fabricated_witness :
  exists seed,
    upgrades (upgradeCalls cfg0 extFound req0 runLive (Some query0)) = [inl seed]
    /\ UpgradeData.jabberId seed = Some "alice@xmpp.test/7f3a"
    /\ UpgradeData.jabberPassword seed
       = Some "HS256:1d:alice@xmpp.test/7f3a:s3cret".
Proof.
  exists (responseData extFound req0 query0 tokenData0
            (chatCredentials cfg0 extFound runLive tokenData0
               (memberFor (lookupArgs req0 query0 tokenData0)))).
  split; [reflexivity|].
  destruct (chat_credentials_fabricated cfg0 extFound req0 runLive query0
              (responseData extFound req0 query0 tokenData0
                 (chatCredentials cfg0 extFound runLive tokenData0
                    (memberFor (lookupArgs req0 query0 tokenData0))))
              (or_introl eq_refl))
    as (args & fetched & L & F & _ & A & _).
  injection L as <-. injection F as <-.
  destruct (A eq_refl) as (J & P & _).
  split; [exact J | exact (P "s3cret" eq_refl eq_refl)].
Defined.

(** ** One texture id or several *)

(** C10. A [characterTextureIds] that is one string is normalised to the
    one-element list of that string, and the whole upgrade (its calls, the
    lookup among them, its final state and its completion) is the one of the
    same request carrying that one-element list; the lookup it starts is
    given that list. *)
Theorem single_texture_id_is_a_list
        (cfg : Config) (ext : Externals) (req : Headers) (run : Room.Run)
        (q : Query.t) (single : string) :
  characterTextureIds (withTextures q (inl single)) = [single]
  /\ upgrade cfg ext req run (Some (withTextures q (inl single))) false
     = upgrade cfg ext req run (Some (withTextures q (inr [single]))) false
  /\ upgradeCalls cfg ext req run (Some (withTextures q (inl single)))
     = upgradeCalls cfg ext req run (Some (withTextures q (inr [single])))
  /\ forall args,
       In args (lookups (upgradeCalls cfg ext req run
                           (Some (withTextures q (inl single))))) ->
       Lookup.characterTextureIds args = [single].
Proof.
  split; [reflexivity|]. split; [reflexivity|]. split; [reflexivity|].
  intros args H.
  destruct (upgrade_reaches_lookup cfg ext req run (withTextures q (inl single)))
    as (tokenData & E).
  - intros N. rewrite N in H. contradiction.
  - rewrite E in H. cbn [lookups flat_map app] in H.
    fold (lookups (calls
      (afterLookup cfg ext req run (withTextures q (inl single)) tokenData
         (fetchMemberDataByUuid ext
            (lookupArgs req (withTextures q (inl single)) tokenData))
         (onAbortedFired run)))) in H.
    rewrite afterLookup_no_lookup in H.
    destruct H as [<- | []]. reflexivity.
Qed.

(** ** Closing the socket *)

(** The whole of [close], by the way the two cleanup calls end. *)
Lemma close_outcome (run : RoomClose.Run) (s : Socket) :
  close run s =
  Outcome
    (LeaveRoom
       :: match leaveRoom run with
          | inl e => [RoomClose.SentryCapture (disconnectReport e);
                      RoomClose.ConsoleError (Caught e)]
          | inr _ =>
              LeaveSpaces
                :: match leaveSpaces run with
                   | inl e => [RoomClose.SentryCapture (disconnectReport e);
                               RoomClose.ConsoleError (Caught e)]
                   | inr _ => []
                   end
          end
       ++ cancelTimers s)
    {| RoomClose.disconnecting := true;
       pingIntervalId := pingIntervalId s;
       pongTimeoutId := pongTimeoutId s |}
    (Normal tt).
Proof.
  unfold close, cancelTimers, tryFinally, tryCatch, bind, call, emit, get, put,
    throw, ret.
  destruct (leaveRoom run) as [e | []]; [|destruct (leaveSpaces run) as [e | []]];
    cbn; destruct (pingIntervalId s), (pongTimeoutId s); reflexivity.
Qed.

(** What [close] does keep of the teardown contract. Closing a [/room]
    socket never throws: an
    exception of [leaveRoom] or of [leaveSpaces] is caught and reported to
    telemetry and to the console; [leaveRoom] is always called, [leaveSpaces]
    is called whenever [leaveRoom] returned; and each of the two timers
    that is set is cancelled, whatever the cleanup calls did. *)
Theorem close_releases_timers (run : RoomClose.Run) (s : Socket) :
  how (close run s) = Normal tt
  /\ RoomClose.disconnecting (final (close run s)) = true
  /\ In LeaveRoom (calls (close run s))
  /\ (forall u, leaveRoom run = inr u -> In LeaveSpaces (calls (close run s)))
  /\ (forall e,
         leaveRoom run = inl e
         \/ (exists u, leaveRoom run = inr u) /\ leaveSpaces run = inl e ->
         In (RoomClose.SentryCapture (disconnectReport e)) (calls (close run s))
         /\ In (RoomClose.ConsoleError (Caught e)) (calls (close run s)))
  /\ (forall id, pingIntervalId s = Some id ->
                 In (ClearInterval id) (calls (close run s)))
  /\ (forall id, pongTimeoutId s = Some id ->
                 In (ClearTimeout id) (calls (close run s))).
Proof.
  rewrite close_outcome. cbn [how final calls RoomClose.disconnecting].
  split; [reflexivity|]. split; [reflexivity|]. split; [now left|].
  split; [|split; [|split]].
  - intros u ->. right. now left.
  - intros e [-> | [[u ->] ->]]; cbn; auto 6.
  - intros id P. right. apply in_or_app. right.
    unfold cancelTimers. rewrite P. now left.
  - intros id P. right. apply in_or_app. right.
    unfold cancelTimers. rewrite P. apply in_or_app. right. now left.
Qed.

Lemma close_releases_timers_witness :
  In LeaveSpaces (calls (close spaceGone socket0))
  /\ In (RoomClose.ConsoleError (Caught (Error "space gone")))
        (calls (close spaceGone socket0))
  /\ In (ClearInterval 11) (calls (close roomGone socket0))
  /\ In (ClearTimeout 12) (calls (close roomGone socket0)).
Proof.
  split; [|split; [|split]].
  - apply (proj1 (proj2 (proj2 (proj2 (close_releases_timers spaceGone socket0))))
             tt eq_refl).
  - apply (proj1 (proj2 (proj2 (proj2 (proj2
             (close_releases_timers spaceGone socket0)))))).
    right. split; [exists tt|]; reflexivity.
  - apply (proj1 (proj2 (proj2 (proj2 (proj2 (proj2
             (close_releases_timers roomGone socket0))))))). reflexivity.
  - apply (proj2 (proj2 (proj2 (proj2 (proj2 (proj2
             (close_releases_timers roomGone socket0))))))). reflexivity.
Defined.

(** C3. The claim holds of the handler except where [leaveRoom] throws.
    Closing a socket with both timers set while [leaveRoom] throws
    [new Error("room not found")]: the error is caught and reported, with the
    text of line 899, both timers are cancelled and the handler ends
    normally, but [leaveSpaces] is not called, so the spaces of the session
    are not released. *)
Theorem leaveRoom_failure_skips_leaveSpaces :
  calls (close roomGone socket0)
  = [ LeaveRoom;
      RoomClose.SentryCapture
        (Text ("An error occurred on " ++ RoomClose.quote ++ "disconnect"
                 ++ RoomClose.quote ++ " Error: room not found"));
      RoomClose.ConsoleError (Caught (Error "room not found"));
      ClearInterval 11; ClearTimeout 12 ]
  /\ ~ In LeaveSpaces (calls (close roomGone socket0))
  /\ how (close roomGone socket0) = Normal tt.
Proof.
  split; [reflexivity|]. split; [|reflexivity].
  cbn. intros H. repeat (destruct H as [H | H]; try discriminate H). exact H.
Qed.

Lemma single_texture_id_is_a_list_witness :
  Lookup.characterTextureIds
    (lookupArgs req0 (withTextures query0 (inl "male1")) tokenData0) = ["male1"].
Proof.
  apply (proj2 (proj2 (proj2
           (single_texture_id_is_a_list cfg0 extFound req0 runLive query0 "male1")))).
  vm_compute. left. reflexivity.
Defined.

(** ** More on the admin socket *)

Lemma forOf_ret {St Ev A} (xs : list A) (s : St) :
  forOf xs (fun _ => ret tt) s = Outcome (Ev := Ev) [] s (Normal tt).
Proof.
  induction xs as [|x xs IH]; simpl; [reflexivity|].
  unfold bind at 1. simpl. now rewrite IH.
Qed.

(** The ["user-message"] branch, by the type of the message. *)
Lemma userMessage_outcome (authorized : list string) (world : string)
      (msg : Admin.UserMessage) :
  Admin.userMessage authorized world msg tt =
  Outcome
    (if String.eqb (Admin.type msg) "banned"
     then map (Admin.EmitBan (Admin.userUuid msg) (Admin.message msg) (Admin.type msg))
              (filter (inWorld world) authorized)
     else if String.eqb (Admin.type msg) "ban"
     then map (Admin.EmitSendUserMessage (Admin.userUuid msg) (Admin.message msg)
                                         (Admin.type msg))
              (filter (inWorld world) authorized)
     else [])
    tt (Normal tt).
Proof.
  unfold Admin.userMessage. fold (inWorld world).
  destruct (String.eqb (Admin.type msg) "banned").
  - apply forOf_emit.
  - destruct (String.eqb (Admin.type msg) "ban").
    + apply forOf_emit.
    + apply forOf_ret.
Qed.

(** A well-formed frame whose token is verified runs its branch. *)
Lemma onMessage_verified (ext : Admin.Externals) (remote : string)
      (m : Admin.AdminMessageInterface) (tokenData : Admin.AdminSocketTokenData) :
  Admin.verifyAdminSocketToken ext (Admin.jwtOf m) = inr tokenData ->
  Admin.run ext remote (Admin.WellFormed m) =
  match m with
  | Admin.Listen _ roomIds =>
      calls (Admin.listen ext remote (Admin.authorizedRoomIds tokenData) roomIds tt)
  | Admin.UserMessageEvent _ world msg =>
      calls (Admin.userMessage (Admin.authorizedRoomIds tokenData) world msg tt)
  end.
Proof.
  intros V. unfold Admin.run, Admin.onMessage, tryCatch. simpl.
  rewrite V. unfold bind at 1. simpl.
  destruct m as [jwt roomIds | jwt world msg].
  - rewrite listen_outcome. destruct (filter _ roomIds); reflexivity.
  - rewrite userMessage_outcome. reflexivity.
Qed.

(** A well-formed frame whose token is refused. *)
Lemma onMessage_refused (ext : Admin.Externals) (remote : string)
      (m : Admin.AdminMessageInterface) (e : Exception) :
  Admin.verifyAdminSocketToken ext (Admin.jwtOf m) = inl e ->
  Admin.onMessage ext remote (Admin.WellFormed m) tt =
  Outcome
    [ Admin.SentryCapture
        (Text ("Admin socket access refused for token: " ++ Admin.jwtOf m
                 ++ " " ++ toString e));
      Admin.ConsoleError
        (Text ("Admin socket access refused for token: " ++ Admin.jwtOf m));
      Admin.WsSendError "Admin socket access refused! The connection has been closed.";
      Admin.WsEnd 1008 "Access refused" ]
    tt Returned.
Proof.
  intros V. unfold Admin.onMessage, tryCatch. simpl. rewrite V. reflexivity.
Qed.

Lemma roomActions_EmitBan (u m ty : string) (rooms : list string) :
  roomActions (map (Admin.EmitBan u m ty) rooms) = rooms.
Proof. induction rooms as [|r rooms IH]; simpl; [reflexivity | now rewrite IH]. Qed.

Lemma roomActions_EmitSendUserMessage (u m ty : string) (rooms : list string) :
  roomActions (map (Admin.EmitSendUserMessage u m ty) rooms) = rooms.
Proof. induction rooms as [|r rooms IH]; simpl; [reflexivity | now rewrite IH]. Qed.

Lemma roomActions_HandleAdminRoom (rooms : list string) :
  roomActions (map Admin.HandleAdminRoom rooms) = rooms.
Proof. induction rooms as [|r rooms IH]; simpl; [reflexivity | now rewrite IH]. Qed.

Lemma adminCloseCodes_map (f : string -> Admin.Event) (rooms : list string) :
  (forall r c reason, f r <> Admin.WsEnd c reason) ->
  adminCloseCodes (map f rooms) = [].
Proof.
  intros H. induction rooms as [|r rooms IH]; simpl; [reflexivity|].
  rewrite IH. destruct (f r) eqn:E; try reflexivity.
  exfalso. exact (H _ _ _ E).
Qed.

(** X1. When the admin socket closes the connection: a frame that is not
    JSON is only reported and leaves the connection open; a frame that is
    JSON but no admin message closes it with 1007 when the template literal
    that reports the message yields a text, and leaves it open when that
    literal throws (a message without primitive form), the failure being
    reported only; a well-formed frame closes it with 1008 exactly when its
    token is refused or when it is a ["listen"] naming a room outside the
    allow-list; a ["user-message"] with a verified token never closes it. *)
Theorem admin_close_codes (ext : Admin.Externals) (remote : string)
        (frame : Admin.Frame) :
  (forall issues thrown inspected,
      Admin.run ext remote (Admin.Malformed issues (inl thrown) inspected)
      = [ Admin.ConsoleError (Text issues);
          Admin.SentryCapture (Text issues);
          Admin.SentryCapture (Caught thrown);
          Admin.ConsoleError (Caught thrown) ])
  /\
  adminCloseCodes (Admin.run ext remote frame) =
  match frame with
  | Admin.NotJson _ => []
  | Admin.Malformed _ (inr _) _ => [1007%Z]
  | Admin.Malformed _ (inl _) _ => []
  | Admin.WellFormed m =>
      match Admin.verifyAdminSocketToken ext (Admin.jwtOf m), m with
      | inl _, _ => [1008%Z]
      | inr tokenData, Admin.Listen _ roomIds =>
          if forallb (Js.includes (Admin.authorizedRoomIds tokenData)) roomIds
          then [] else [1008%Z]
      | inr _, Admin.UserMessageEvent _ _ _ => []
      end
  end.
Proof.
  split; [reflexivity|].
  destruct frame as [err | issues [thrown | text] inspected | m]; try reflexivity.
  destruct (Admin.verifyAdminSocketToken ext (Admin.jwtOf m)) as [e | tokenData] eqn:V.
  - unfold Admin.run. now rewrite (onMessage_refused _ _ _ _ V).
  - rewrite (onMessage_verified _ _ _ _ V).
    destruct m as [jwt roomIds | jwt world msg].
    + rewrite listen_outcome.
      destruct (filter _ roomIds) as [|b bad] eqn:F.
      * assert (A : forallb (Js.includes (Admin.authorizedRoomIds tokenData)) roomIds
                    = true).
        { apply forallb_forall. intros r Hr.
          rewrite filter_nil_iff in F. specialize (F r Hr).
          now apply negb_false_iff in F. }
        rewrite A. cbn [calls].
        apply adminCloseCodes_map. discriminate.
      * assert (A : forallb (Js.includes (Admin.authorizedRoomIds tokenData)) roomIds
                    = false).
        { apply not_true_is_false. intros A.
          assert (Hb : In b (filter (fun r => negb (Js.includes
                          (Admin.authorizedRoomIds tokenData) r)) roomIds))
            by (rewrite F; now left).
          apply filter_In in Hb. destruct Hb as [Hb Hp].
          rewrite forallb_forall in A. rewrite (A b Hb) in Hp. discriminate. }
        rewrite A. reflexivity.
    + rewrite userMessage_outcome. cbn [calls].
      destruct (String.eqb _ "banned"); [apply adminCloseCodes_map; discriminate|].
      destruct (String.eqb _ "ban"); [apply adminCloseCodes_map; discriminate|].
      reflexivity.
Qed.

(** X2. No frame is half executed: whenever the admin socket closes the
    connection on a frame, it has acted on no room for that frame (no
    listening started, no ban, no message); and the handler lets no exception
    out. *)
Theorem admin_close_means_no_action (ext : Admin.Externals) (remote : string)
        (frame : Admin.Frame) :
  (adminCloseCodes (Admin.run ext remote frame) <> [] ->
   roomActions (Admin.run ext remote frame) = [])
  /\ forall e, how (Admin.onMessage ext remote frame tt) <> Thrown e.
Proof.
  destruct frame as [err | issues [thrown | text] inspected | m].
  - split; [reflexivity | discriminate].
  - split; [reflexivity | discriminate].
  - split; [reflexivity | discriminate].
  - destruct (Admin.verifyAdminSocketToken ext (Admin.jwtOf m)) as [e | tokenData] eqn:V.
    + unfold Admin.run. rewrite (onMessage_refused _ _ _ _ V).
      split; [reflexivity | discriminate].
    + split.
      * rewrite (onMessage_verified _ _ _ _ V).
        destruct m as [jwt roomIds | jwt world msg].
        -- rewrite listen_outcome.
           destruct (filter _ roomIds) as [|b bad]; [|reflexivity].
           cbn [calls]. intros N. exfalso. apply N.
           apply adminCloseCodes_map. discriminate.
        -- rewrite userMessage_outcome. cbn [calls]. intros N. exfalso. apply N.
           destruct (String.eqb _ "banned"); [apply adminCloseCodes_map; discriminate|].
           destruct (String.eqb _ "ban"); [apply adminCloseCodes_map; discriminate|].
           reflexivity.
      * intros e. unfold Admin.onMessage, tryCatch. simpl. rewrite V.
        unfold bind at 1. simpl.
        destruct m as [jwt roomIds | jwt world msg].
        -- rewrite listen_outcome. destruct (filter _ roomIds); discriminate.
        -- rewrite userMessage_outcome. discriminate.
Qed.

Lemma admin_close_means_no_action_witness :
  roomActions
    (Admin.run ext0 "10.0.0.1" (Admin.WellFormed (Admin.Listen "jwt" ["a"; "c"]))) = [].
Proof.
  apply (proj1 (admin_close_means_no_action ext0 "10.0.0.1"
                  (Admin.WellFormed (Admin.Listen "jwt" ["a"; "c"])))).
  vm_compute. discriminate.
Defined.

(** X3. A ["user-message"] with a verified token only reaches rooms of the
    token's allow-list whose sixth path segment is the world of the message:
    each of them, in the order of the allow-list, gets [emitBan] when the
    type is ["banned"] and [emitSendUserMessage] when it is ["ban"]; any
    other type reaches no room. Nothing is sent back and the connection
    stays open. *)
Theorem user_message_scope (ext : Admin.Externals) (remote jwt world : string)
        (msg : Admin.UserMessage) (tokenData : Admin.AdminSocketTokenData) :
  Admin.verifyAdminSocketToken ext jwt = inr tokenData ->
  let authorized := Admin.authorizedRoomIds tokenData in
  let t := Admin.run ext remote (Admin.WellFormed (Admin.UserMessageEvent jwt world msg)) in
  (forall r, In r (roomActions t) -> In r authorized /\ inWorld world r = true)
  /\ (Admin.type msg = "banned" ->
      t = map (Admin.EmitBan (Admin.userUuid msg) (Admin.message msg) "banned")
              (filter (inWorld world) authorized))
  /\ (Admin.type msg = "ban" ->
      t = map (Admin.EmitSendUserMessage (Admin.userUuid msg) (Admin.message msg) "ban")
              (filter (inWorld world) authorized))
  /\ (Admin.type msg <> "banned" -> Admin.type msg <> "ban" -> t = []).
Proof.
  intros V authorized t.
  assert (Ht : t = calls (Admin.userMessage authorized world msg tt))
    by (apply (onMessage_verified ext remote
                 (Admin.UserMessageEvent jwt world msg) tokenData V)).
  rewrite userMessage_outcome in Ht. cbn [calls] in Ht. clearbody t. subst t.
  split; [|split; [|split]].
  - intros r.
    destruct (String.eqb _ "banned");
      [rewrite roomActions_EmitBan; intros H; apply filter_In in H; exact H|].
    destruct (String.eqb _ "ban");
      [rewrite roomActions_EmitSendUserMessage; intros H; apply filter_In in H; exact H|].
    intros [].
  - intros ->. reflexivity.
  - intros ->. reflexivity.
  - intros N1 N2. apply String.eqb_neq in N1, N2. now rewrite N1, N2.
Qed.

Lemma user_message_scope_witness :
  Admin.run extWorld "10.0.0.1"
    (Admin.WellFormed
       (Admin.UserMessageEvent "jwt" "w7"
          {| Admin.type := "ban"; Admin.userUuid := "u1"; Admin.message := "bye" |}))
  = [ Admin.EmitSendUserMessage "u1" "bye" "ban" "https://play.test/@/org/w7/lobby";
      Admin.EmitSendUserMessage "u1" "bye" "ban" "https://play.test/@/org/w7/office" ].
Proof.
  apply (proj1 (proj2 (proj2
           (user_message_scope extWorld "10.0.0.1" "jwt" "w7"
              {| Admin.type := "ban"; Admin.userUuid := "u1"; Admin.message := "bye" |}
              _ eq_refl)))).
  reflexivity.
Defined.

(** ** More on the upgrade *)

(** X4. Whatever the request, the collaborators and the client do, one run
    of the upgrade calls [res.upgrade] at most once, starts at most one
    member-data lookup, and lets no exception out of the handler. *)
Theorem upgrade_answers_at_most_once
        (cfg : Config) (ext : Externals) (req : Headers) (run : Room.Run)
        (validated : option Query.t) :
  (length (upgrades (upgradeCalls cfg ext req run validated)) <= 1)%nat
  /\ (length (lookups (upgradeCalls cfg ext req run validated)) <= 1)%nat
  /\ forall e, how (upgrade cfg ext req run validated false) <> Thrown e.
Proof.
  repeat split; run_upgrade; auto; discriminate.
Qed.

(** X5. A validated request is left without any [res.upgrade] in exactly one
    situation: the lookup was started and the client went away before it
    answered. In every other run the handshake is answered. *)
Theorem upgrade_unanswered_iff_aborted
        (cfg : Config) (ext : Externals) (req : Headers) (run : Room.Run)
        (query : Query.t) :
  upgrades (upgradeCalls cfg ext req run (Some query)) = []
  <-> onAbortedFired run = true
      /\ lookups (upgradeCalls cfg ext req run (Some query)) <> [].
Proof.
  split.
  - run_upgrade; intros H; try discriminate H; split; auto; discriminate.
  - intros [A L]. revert L. run_upgrade; intros L; try reflexivity; try congruence.
Qed.

(** Facts about the tests made before the lookup, in the form the proofs
    use. *)
Ltac pre_facts :=
  repeat match goal with
  | H : negb _ = false |- _ => apply negb_false_iff in H
  | H : negb _ = true |- _ => apply negb_true_iff in H
  | H : String.eqb _ _ = true |- _ => apply String.eqb_eq in H
  | H : _ && false = _ |- _ => rewrite andb_false_r in H
  | H : _ && true = _ |- _ => rewrite andb_true_r in H
  end.

Lemma lookup_preconditions (cfg : Config) (ext : Externals) (req : Headers)
      (run : Room.Run) (query : Query.t) :
  lookups (upgradeCalls cfg ext req run (Some query)) <> [] ->
  Query.version query = apiVersionHash cfg
  /\ exists tokenData,
       lookups (upgradeCalls cfg ext req run (Some query))
         = [lookupArgs req query tokenData]
       /\ (forall token,
              Query.token query = Some token -> Js.truthy token = true ->
              exists d, verifyJWTToken ext token = inr d /\ tokenData = Some d)
       /\ (Js.truthyOpt (Query.token query) = false -> tokenData = None)
       /\ (DISABLE_ANONYMOUS cfg = true -> tokenData <> None).
Proof.
  intros L. split.
  - revert L. run_upgrade; intros L; try (exfalso; apply L; reflexivity);
      pre_facts; assumption.
  - exists (match Query.token query with
            | Some token =>
                if Js.truthy token
                then match verifyJWTToken ext token with
                     | inr d => Some d
                     | inl _ => None
                     end
                else None
            | None => None
            end).
    revert L. unfold Js.truthyOpt.
    run_upgrade; intros L; try (exfalso; apply L; reflexivity); pre_facts.
    all: split; [reflexivity|]; split; [|split].
    all: try (intros token' E T; try discriminate E; injection E as <-;
              try congruence;
              match goal with
              | H : verifyJWTToken _ _ = inr ?t |- _ =>
                  exists t; split; [exact H | reflexivity]
              end).
    all: try congruence; try discriminate.
Qed.

(** X6. No member-data lookup is made before the request has passed the
    version check and the token check, and the lookup is made for the
    identity of the verified token: with a (non-empty) token the identifier
    and the access token are those [verifyJWTToken] returned; without one
    the identifier is empty, there is no access token, and anonymous
    connections are not disabled. *)
Theorem lookup_only_after_checks
        (cfg : Config) (ext : Externals) (req : Headers) (run : Room.Run)
        (query : Query.t) (args : Lookup.t) :
  In args (lookups (upgradeCalls cfg ext req run (Some query))) ->
  Query.version query = apiVersionHash cfg
  /\ Lookup.roomId args = Query.roomId query
  /\ Lookup.characterTextureIds args = characterTextureIds query
  /\ (forall token,
         Query.token query = Some token -> Js.truthy token = true ->
         exists d, verifyJWTToken ext token = inr d
                   /\ Lookup.userIdentifier args = TokenData.identifier d
                   /\ Lookup.accessToken args = TokenData.accessToken d)
  /\ (Js.truthyOpt (Query.token query) = false ->
      DISABLE_ANONYMOUS cfg = false
      /\ Lookup.userIdentifier args = ""
      /\ Lookup.accessToken args = None).
Proof.
  intros H.
  destruct (lookup_preconditions cfg ext req run query)
    as (V & tokenData & L & T & N & D).
  - intros E. rewrite E in H. contradiction.
  - rewrite L in H. destruct H as [<- | []].
    split; [exact V|]. split; [reflexivity|]. split; [reflexivity|]. split.
    + intros token E Tr. destruct (T token E Tr) as (d & Vd & ->).
      exists d. repeat split; assumption.
    + intros F. rewrite (N F) in *. split; [|split; reflexivity].
      destruct (DISABLE_ANONYMOUS cfg); [|reflexivity].
      exfalso. now apply D.
Qed.

(** The run of a request whose token [verifyJWTToken] refuses. *)
Lemma upgrade_token_refused (cfg : Config) (ext : Externals) (req : Headers)
      (run : Room.Run) (query : Query.t) (token : string) (e : Exception) :
  Query.version query = apiVersionHash cfg ->
  Query.token query = Some token -> Js.truthy token = true ->
  verifyJWTToken ext token = inl e ->
  upgrade cfg ext req run (Some query) false = onFailure cfg req query e false.
Proof.
  intros V T Tr R. apply String.eqb_eq in V.
  unfold upgrade, attempt, checkVersion, verifyToken, tryCatch.
  unfold bind at 1. rewrite V. cbn [negb when ret].
  rewrite T, Tr, R. cbn.
  destruct (onFailure cfg req query e false). reflexivity.
Qed.

Lemma strictEq_refl (r : option Reason) : strictEq r r = true.
Proof. destruct r as [[]|]; reflexivity. Qed.

(** X7. A request of the right version whose token [verifyJWTToken] refuses
    never reaches the lookup. If the refusal is a [JsonWebTokenError], the
    only call of the upgrade is [res.upgrade] with the rejection of reason
    [tokenInvalidException], status 401 and the message of the error
    (nothing goes to telemetry), and the socket that opens on it is sent the
    token-expired message. Any other [Error] is reported and rejected with
    reason [null] and status 401; a thrown value that is no [Error] is
    rejected with status 500. *)
Theorem refused_token_rejected
        (cfg : Config) (ext : Externals) (req : Headers) (run : Room.Run)
        (query : Query.t) (token : string) (e : Exception) (orun : RoomOpen.Run) :
  Query.version query = apiVersionHash cfg ->
  Query.token query = Some token -> Js.truthy token = true ->
  verifyJWTToken ext token = inl e ->
  lookups (upgradeCalls cfg ext req run (Some query)) = []
  /\ (forall m,
         e = JsonWebTokenError m ->
         let refusal := UpgradeFailedInvalidData (tokenInvalidException cfg) (Some m)
                                                 401 (Query.roomId query) in
         upgradeCalls cfg ext req run (Some query)
         = [ResUpgrade (inr refusal) (websocketKey req) (websocketProtocol req)
                       (websocketExtensions req)]
         /\ In EmitTokenExpiredMessage (calls (opened cfg orun (inr refusal))))
  /\ (instanceofError e = true -> instanceofJsonWebTokenError e = false ->
      upgrades (upgradeCalls cfg ext req run (Some query))
      = [inr (UpgradeFailedInvalidData None (Some (messageOf e)) 401
                                       (Query.roomId query))]
      /\ In (Room.SentryCapture (Caught e))
            (upgradeCalls cfg ext req run (Some query)))
  /\ (instanceofError e = false ->
      upgrades (upgradeCalls cfg ext req run (Some query))
      = [inr (UpgradeFailedInvalidData None (Some "500 Internal Server Error") 500
                                       (Query.roomId query))]).
Proof.
  intros V T Tr R. unfold upgradeCalls.
  rewrite (upgrade_token_refused cfg ext req run query token e V T Tr R).
  split; [|split; [|split]].
  - destruct e; reflexivity.
  - intros m Em. subst e. cbv zeta. split; [reflexivity|].
    rewrite opened_rejected. cbn [calls]. apply in_or_app. right. left.
    unfold errorMessageFor. cbn [reasonOf]. now rewrite strictEq_refl.
  - intros IE NJ. destruct e; try discriminate; split; cbn; auto.
  - intros NE. destruct e; try discriminate. reflexivity.
Qed.

(** What the upgrade does when the lookup throws something that is no axios
    error. *)
Lemma afterLookup_denied (cfg : Config) (ext : Externals) (req : Headers)
      (run : Room.Run) (query : Query.t) (tokenData : option TokenData.t)
      (e : Exception) :
  isAxiosError e = false ->
  exists note,
    calls (afterLookup cfg ext req run query tokenData (inl e) false)
    = [ ConsoleLog (Text note);
        Room.SentryCapture (Caught e);
        Room.ConsoleError (Caught e);
        Room.SentryCapture (Caught (Error "User cannot access this world"));
        Room.ConsoleError (Caught (Error "User cannot access this world"));
        ResUpgrade
          (inr (UpgradeFailedInvalidData None (Some "User cannot access this world")
                                         401 (Query.roomId query)))
          (websocketKey req) (websocketProtocol req) (websocketExtensions req) ].
Proof.
  intros NA. eexists. unfold_after. cbn. rewrite NA. cbn. reflexivity.
Qed.

(** X8. When the lookup fails with anything but an axios error and the
    client is still there, the client is told nothing of the cause: whatever
    was thrown (an [Error], a [JsonWebTokenError], or a value that is no
    [Error]), the rejection has reason [null], status 401 and the fixed
    message ["User cannot access this world"]; the cause itself goes to
    telemetry. *)
Theorem lookup_failure_hides_cause
        (cfg : Config) (ext : Externals) (req : Headers) (run : Room.Run)
        (query : Query.t) (args : Lookup.t) (e : Exception) :
  lookups (upgradeCalls cfg ext req run (Some query)) = [args] ->
  fetchMemberDataByUuid ext args = inl e ->
  isAxiosError e = false ->
  onAbortedFired run = false ->
  upgrades (upgradeCalls cfg ext req run (Some query))
  = [inr (UpgradeFailedInvalidData None (Some "User cannot access this world") 401
                                   (Query.roomId query))]
  /\ In (Room.SentryCapture (Caught e)) (upgradeCalls cfg ext req run (Some query)).
Proof.
  intros L F NA A.
  destruct (upgrade_reaches_lookup cfg ext req run query) as (tokenData & E).
  - rewrite L. discriminate.
  - rewrite E in L. cbn [lookups flat_map app] in L.
    fold (lookups (calls
      (afterLookup cfg ext req run query tokenData
         (fetchMemberDataByUuid ext (lookupArgs req query tokenData))
         (onAbortedFired run)))) in L.
    rewrite afterLookup_no_lookup in L. injection L as <-.
    rewrite E, F, A.
    destruct (afterLookup_denied cfg ext req run query tokenData e NA) as (note & ->).
    split; [reflexivity|]. right. right. now left.
Qed.

(** An accepted upgrade, seen from its end: the lookup answered, the client
    was still there, both texture checks passed, and the seed is
    [responseData] of the answer. *)
Lemma accepted_run (cfg : Config) (ext : Externals) (req : Headers)
      (run : Room.Run) (query : Query.t) (seed : UpgradeData.t) :
  In (inl seed) (upgrades (upgradeCalls cfg ext req run (Some query))) ->
  exists tokenData fetched,
    lookups (upgradeCalls cfg ext req run (Some query))
      = [lookupArgs req query tokenData]
    /\ upgrades (upgradeCalls cfg ext req run (Some query)) = [inl seed]
    /\ onAbortedFired run = false
    /\ length (characterTextureIds query)
       = length (MemberData.characterTextures fetched)
    /\ (Js.truthyOpt (Query.companionTextureId query) = true ->
        MemberData.companionTexture fetched <> None)
    /\ seed = responseData ext req query tokenData
                (chatCredentials cfg ext run tokenData fetched).
Proof.
  intros H.
  destruct (accepted_seed cfg ext req run query seed H)
    as (td & fetched & L & F & _).
  destruct (upgrade_with_lookup cfg ext req run query _ L) as (tokenData & Ea & E).
  exists tokenData, fetched. rewrite <- Ea. split; [exact L|].
  rewrite E, F, afterLookup_found in H |- *.
  destruct (onAbortedFired run); [contradiction|].
  destruct (Nat.eqb _ _) eqn:N; cbn [negb] in H |- *;
    [|destruct H as [H | []]; discriminate H].
  apply Nat.eqb_eq in N.
  destruct (Js.truthyOpt (Query.companionTextureId query)) eqn:C;
    destruct (MemberData.companionTexture fetched) eqn:P; cbn in H |- *;
    destruct H as [H | []]; try discriminate H; injection H as <-;
    repeat split; try reflexivity; try assumption; try discriminate.
Qed.

(** X9. Every session seed the upgrade sends is the only answer of that
    upgrade and was sent to a client that was still there, for a request of
    the server's version; it has as many character textures as the request
    has texture ids, a companion texture whenever a (non-empty) companion id
    was requested, the room, the name and the address of the request, and no
    queued message, whatever the lookup returned; and with anonymous
    connections disabled the request carried a token. *)
Theorem accepted_seed_invariants
        (cfg : Config) (ext : Externals) (req : Headers) (run : Room.Run)
        (query : Query.t) (seed : UpgradeData.t) :
  In (inl seed) (upgrades (upgradeCalls cfg ext req run (Some query))) ->
  upgrades (upgradeCalls cfg ext req run (Some query)) = [inl seed]
  /\ onAbortedFired run = false
  /\ Query.version query = apiVersionHash cfg
  /\ length (UpgradeData.characterTextures seed) = length (characterTextureIds query)
  /\ (Js.truthyOpt (Query.companionTextureId query) = true ->
      UpgradeData.companionTexture seed <> None)
  /\ (DISABLE_ANONYMOUS cfg = true -> Js.truthyOpt (Query.token query) = true)
  /\ UpgradeData.roomId seed = Query.roomId query
  /\ UpgradeData.name seed = Query.name query
  /\ UpgradeData.IPAddress seed = IPAddress req
  /\ UpgradeData.messages seed = [].
Proof.
  intros H.
  destruct (accepted_run cfg ext req run query seed H)
    as (tokenData & fetched & L & U & A & N & C & ->).
  destruct (lookup_preconditions cfg ext req run query)
    as (V & td & _ & _ & Nt & D); [rewrite L; discriminate|].
  destruct (chatCredentials_textures cfg ext run tokenData fetched) as (Ec & Ep).
  split; [exact U|]. split; [exact A|]. split; [exact V|].
  cbn. rewrite Ec, Ep.
  split; [now symmetry|]. split; [exact C|]. split.
  - intros Dt. destruct (Js.truthyOpt (Query.token query)) eqn:T; [reflexivity|].
    exfalso. exact (D Dt (Nt eq_refl)).
  - repeat split.
Qed.

(** X10. A session is marked as logged only for a verified token that
    carries an access token: the seed of an accepted upgrade has [isLogged]
    set exactly when the request had a non-empty token that
    [verifyJWTToken] accepted with a non-empty access token, and its user
    identifier is then the identifier of that token; a request without token
    gives a seed that is not logged, with an empty identifier and an empty
    token. *)
Theorem logged_needs_verified_token
        (cfg : Config) (ext : Externals) (req : Headers) (run : Room.Run)
        (query : Query.t) (seed : UpgradeData.t) :
  In (inl seed) (upgrades (upgradeCalls cfg ext req run (Some query))) ->
  (forall token,
      Query.token query = Some token -> Js.truthy token = true ->
      exists d, verifyJWTToken ext token = inr d
                /\ UpgradeData.userIdentifier seed = TokenData.identifier d
                /\ UpgradeData.isLogged seed = Js.truthyOpt (TokenData.accessToken d)
                /\ UpgradeData.token seed = token)
  /\ (Js.truthyOpt (Query.token query) = false ->
      UpgradeData.isLogged seed = false
      /\ UpgradeData.userIdentifier seed = ""
      /\ UpgradeData.token seed = "").
Proof.
  intros H.
  destruct (accepted_run cfg ext req run query seed H)
    as (tokenData & fetched & L & _ & _ & _ & _ & ->).
  destruct (lookup_preconditions cfg ext req run query)
    as (_ & td & L' & T & N & _); [rewrite L; discriminate|].
  rewrite L in L'. injection L' as Ei Ea.
  cbn [UpgradeData.userIdentifier UpgradeData.isLogged UpgradeData.token
       responseData].
  unfold isLogged. rewrite Ei, Ea. split.
  - intros token E Tr. destruct (T token E Tr) as (d & Vd & ->).
    exists d. rewrite E, Tr. repeat split. exact Vd.
  - intros F. rewrite (N F). unfold Js.truthyOpt in F.
    destruct (Query.token query) as [token|]; [rewrite F|]; repeat split.
Qed.

(** ** More on [open] *)

(** What the loop makes of one queued message. *)
Lemma deliver_outcome (run : RoomOpen.Run) (c : Client) (m : Opaque) :
  deliver run m (Some c) =
  match parseMessage run m with
  | inl e => Outcome [] (Some c) (Thrown e)
  | inr p =>
      Outcome (if RoomOpen.disconnecting c then [] else [ClientSend (fst p) (snd p)])
              (Some c) (Normal tt)
  end.
Proof.
  unfold deliver, bind, call, isDisconnecting.
  destruct (parseMessage run m) as [e | p]; cbn; [reflexivity|].
  destruct (RoomOpen.disconnecting c); reflexivity.
Qed.

Lemma forOf_cons {St Ev A} (x : A) (xs : list A) (body : A -> M St Ev unit) (s : St) :
  forOf (x :: xs) body s =
  match body x s with
  | Outcome t s' (Normal _) =>
      match forOf xs body s' with
      | Outcome t' s'' h => Outcome (t ++ t') s'' h
      end
  | Outcome t s' Returned => Outcome t s' Returned
  | Outcome t s' (Thrown e) => Outcome t s' (Thrown e)
  end.
Proof. reflexivity. Qed.

(** The loop over [client.messages], on a session: it only ever sends, and
    it ends normally or with what the schema threw. *)
Lemma messages_loop (run : RoomOpen.Run) (c : Client) (msgs : list Opaque) :
  exists t h,
    forOf msgs (deliver run) (Some c) = Outcome t (Some c) h
    /\ closeCodes t = [] /\ joins t = []
    /\ (h = Normal tt \/ exists e, h = Thrown e).
Proof.
  induction msgs as [|m msgs IH].
  - exists [], (Normal tt). repeat split. now left.
  - destruct IH as (t & h & E & C & J & Hh).
    rewrite forOf_cons, deliver_outcome.
    destruct (parseMessage run m) as [e | p].
    + exists [], (Thrown e). repeat split. right. eauto.
    + rewrite E. destruct (RoomOpen.disconnecting c).
      * exists t, h. repeat split; assumption.
      * exists (ClientSend (fst p) (snd p) :: t), h. repeat split; assumption.
Qed.

(** The loop when every queued message passes the schema. *)
Lemma messages_loop_all (run : RoomOpen.Run) (c : Client) (msgs : list Opaque)
      (parsed : list (string * string)) :
  map (parseMessage run) msgs = map inr parsed ->
  forOf msgs
    (deliver run)
    (Some c)
  = Outcome (if RoomOpen.disconnecting c then []
             else map (fun p => ClientSend (fst p) (snd p)) parsed)
            (Some c) (Normal tt).
Proof.
  revert parsed. induction msgs as [|m msgs IH]; intros [|p parsed] E;
    try discriminate E.
  - cbn. now destruct (RoomOpen.disconnecting c).
  - injection E as Em Er. rewrite forOf_cons, deliver_outcome, Em, (IH parsed Er).
    destruct (RoomOpen.disconnecting c); reflexivity.
Qed.

(** The loop when the schema refuses one queued message. *)
Lemma messages_loop_stop (run : RoomOpen.Run) (c : Client)
      (good : list Opaque) (bad : Opaque) (rest : list Opaque)
      (parsed : list (string * string)) (e : Exception) :
  map (parseMessage run) good = map inr parsed ->
  parseMessage run bad = inl e ->
  forOf (good ++ bad :: rest)
    (deliver run)
    (Some c)
  = Outcome (if RoomOpen.disconnecting c then []
             else map (fun p => ClientSend (fst p) (snd p)) parsed)
            (Some c) (Thrown e).
Proof.
  intros E B. revert parsed E. induction good as [|m good IH]; intros [|p parsed] E;
    try discriminate E.
  - cbn [app]. rewrite forOf_cons, deliver_outcome, B.
    now destruct (RoomOpen.disconnecting c).
  - injection E as Em Er. cbn [app].
    rewrite forOf_cons, deliver_outcome, Em, (IH parsed Er).
    destruct (RoomOpen.disconnecting c); reflexivity.
Qed.

(** [open] on an accepted socket, up to the loop over the queued messages. *)
Lemma opened_accepted (cfg : Config) (run : RoomOpen.Run) (ws : UpgradeData.t) :
  opened cfg run (inl ws) =
  match joinRoom run with
  | inl e =>
      Outcome [ HandleJoinRoom (initClient ws);
                RoomOpen.SentryCapture (Caught e);
                RoomOpen.ConsoleError (Caught e) ]
              (Some (setDisconnecting (closedWhileJoining run) (initClient ws)))
              (Normal tt)
  | inr _ =>
      match forOf (UpgradeData.messages ws)
              (deliver run)
              (Some (setDisconnecting (closedWhileJoining run) (initClient ws)))
      with
      | Outcome t s (Thrown e) =>
          Outcome (HandleJoinRoom (initClient ws) :: EmitXMPPSettings :: t
                     ++ [RoomOpen.SentryCapture (Caught e);
                         RoomOpen.ConsoleError (Caught e)])
                  s (Normal tt)
      | Outcome t s h =>
          Outcome (HandleJoinRoom (initClient ws) :: EmitXMPPSettings :: t) s h
      end
  end.
Proof.
  unfold opened, open, accepted, awaitJoinRoom, tryCatch.
  change (fun c : Opaque =>
            (messageToSend <- call (parseMessage run c) ;;
             gone <- isDisconnecting ;;
             when (negb gone)
               (emit (ClientSend (fst messageToSend) (snd messageToSend))))%handler)
    with (deliver run).
  unfold bind, call, emit, put, get, ret.
  destruct (joinRoom run) as [e | []]; cbn; [reflexivity|].
  destruct (forOf _ _ _) as [t s [[] | | e]]; reflexivity.
Qed.

(** X11. What [open] leaves behind tells whether the upgrade was accepted:
    it closes the socket exactly when the upgrade was rejected, and a session
    exists afterwards exactly when it was accepted (also when joining the
    room failed or a queued message was refused); and it lets no exception
    out. *)
Theorem open_session_iff_accepted
        (cfg : Config) (run : RoomOpen.Run)
        (ws : UpgradeData.t + UpgradeFailedData) :
  (closeCodes (calls (opened cfg run ws)) <> [] <-> exists d, ws = inr d)
  /\ (final (opened cfg run ws) <> None <-> exists data, ws = inl data)
  /\ forall e, how (opened cfg run ws) <> Thrown e.
Proof.
  destruct ws as [data | d].
  - rewrite opened_accepted.
    destruct (messages_loop run
                (setDisconnecting (closedWhileJoining run) (initClient data))
                (UpgradeData.messages data)) as (t & h & E & C & J & Hh).
    destruct (joinRoom run) as [e | u].
    + cbn. repeat split; try discriminate; eauto.
      * intros N. now contradiction N.
      * intros (d & Ed). discriminate Ed.
    + rewrite E.
      assert (Cc : forall tail, closeCodes tail = [] ->
                     closeCodes (HandleJoinRoom (initClient data)
                                   :: EmitXMPPSettings :: t ++ tail) = []).
      { intros tail Ct. cbn. rewrite closeCodes_app, C, Ct. reflexivity. }
      destruct Hh as [-> | (e & ->)]; cbn [calls final how].
      * specialize (Cc [] eq_refl). rewrite app_nil_r in Cc. rewrite Cc.
        repeat split; try discriminate; eauto.
        -- intros N. now contradiction N.
        -- intros (d & Ed). discriminate Ed.
      * rewrite Cc by reflexivity.
        repeat split; try discriminate; eauto.
        -- intros N. now contradiction N.
        -- intros (d & Ed). discriminate Ed.
  - destruct (rejected_no_session cfg run d) as (F & _ & C).
    rewrite F, C. rewrite opened_rejected. cbn [how].
    repeat split; try discriminate; eauto.
    + intros N. now contradiction N.
    + intros (data & Ed). discriminate Ed.
Qed.

(** X12. When [handleJoinRoom] fails on an accepted socket, the failure is
    reported and that is all: the XMPP settings and the queued messages are
    not sent, the socket is not closed, and the session made by [initClient]
    stays. *)
Theorem join_failure_leaves_socket_open
        (cfg : Config) (run : RoomOpen.Run) (ws : UpgradeData.t) (e : Exception) :
  joinRoom run = inl e ->
  calls (opened cfg run (inl ws))
  = [ HandleJoinRoom (initClient ws);
      RoomOpen.SentryCapture (Caught e);
      RoomOpen.ConsoleError (Caught e) ]
  /\ closeCodes (calls (opened cfg run (inl ws))) = []
  /\ (exists client,
         final (opened cfg run (inl ws)) = Some client /\ seed client = ws)
  /\ how (opened cfg run (inl ws)) = Normal tt.
Proof.
  intros J. rewrite opened_accepted, J. cbn.
  repeat split. eexists. split; reflexivity.
Qed.

(** X13. Once the room is joined, the queued messages of the session are
    sent in order, each as one [sendUserMessage], as long as the schema
    accepts them: the first message it refuses is reported and neither it nor
    any later message is sent. If the socket was closed while the room was
    being joined, nothing is sent, yet the messages are still checked. *)
Theorem queued_messages_delivery
        (cfg : Config) (run : RoomOpen.Run) (ws : UpgradeData.t)
        (parsed : list (string * string)) :
  joinRoom run = inr tt ->
  let sends := if closedWhileJoining run then []
               else map (fun p => ClientSend (fst p) (snd p)) parsed in
  (map (parseMessage run) (UpgradeData.messages ws) = map inr parsed ->
   calls (opened cfg run (inl ws))
   = HandleJoinRoom (initClient ws) :: EmitXMPPSettings :: sends)
  /\ (forall good bad rest e,
         UpgradeData.messages ws = good ++ bad :: rest ->
         map (parseMessage run) good = map inr parsed ->
         parseMessage run bad = inl e ->
         calls (opened cfg run (inl ws))
         = HandleJoinRoom (initClient ws) :: EmitXMPPSettings :: sends
             ++ [RoomOpen.SentryCapture (Caught e); RoomOpen.ConsoleError (Caught e)]).
Proof.
  intros J sends. rewrite opened_accepted, J. split.
  - intros P. rewrite (messages_loop_all run _ _ parsed P). reflexivity.
  - intros good bad rest e M G B.
    rewrite M, (messages_loop_stop run _ good bad rest parsed e G B). reflexivity.
Qed.

(** X14. From the upgrade to the open socket: for every session seed the
    upgrade sends, the socket that opens on it and joins its room gets the
    XMPP settings and nothing else; the messages the member-data lookup
    returned for the user are never delivered, because the seed carries
    none. *)
Theorem accepted_socket_joins_silently
        (cfg : Config) (ext : Externals) (req : Headers) (run : Room.Run)
        (query : Query.t) (seed : UpgradeData.t) (orun : RoomOpen.Run) :
  In (inl seed) (upgrades (upgradeCalls cfg ext req run (Some query))) ->
  joinRoom orun = inr tt ->
  calls (opened cfg orun (inl seed))
  = [HandleJoinRoom (initClient seed); EmitXMPPSettings]
  /\ exists client,
       final (opened cfg orun (inl seed)) = Some client
       /\ RoomOpen.seed client = seed
       /\ RoomOpen.disconnecting client = closedWhileJoining orun.
Proof.
  intros H J.
  destruct (accepted_seed cfg ext req run query seed H) as (td & fetched & _ & _ & ->).
  rewrite opened_accepted, J. cbn.
  split; [reflexivity|]. eexists. repeat split.
Qed.

(** ** Runs of the concrete deployment, continued *)

Lemma lookup_only_after_checks_witness :
  exists d,
    verifyJWTToken extFound "tok" = inr d
    /\ Lookup.userIdentifier (lookupArgs req0 query0 tokenData0)
       = TokenData.identifier d.
Proof.
  destruct (lookup_only_after_checks cfg0 extFound req0 runLive query0
              (lookupArgs req0 query0 tokenData0))
    as (_ & _ & _ & T & _).
  - vm_compute. left. reflexivity.
  - destruct (T "tok" eq_refl eq_refl) as (d & V & I & _). exists d. split; assumption.
Defined.

Lemma refused_token_rejected_witness :
  upgradeCalls cfg0 extExpired req0 runLive (Some query0)
  = [ResUpgrade
       (inr (UpgradeFailedInvalidData (Some tokenInvalid) (Some "jwt expired") 401
               "/_/global/maps.test/room.json"))
       (websocketKey req0) (websocketProtocol req0) (websocketExtensions req0)].
Proof.
  apply (proj1 (proj2 (refused_token_rejected cfg0 extExpired req0 runLive query0
                         "tok" (JsonWebTokenError "jwt expired") orun0
                         eq_refl eq_refl eq_refl eq_refl))
           "jwt expired" eq_refl).
Defined.

Lemma lookup_failure_hides_cause_witness :
  upgrades (upgradeCalls cfg0 extDown req0 runLive (Some query0))
  = [inr (UpgradeFailedInvalidData None (Some "User cannot access this world") 401
            "/_/global/maps.test/room.json")].
Proof.
  apply (lookup_failure_hides_cause cfg0 extDown req0 runLive query0
           (lookupArgs req0 query0 tokenData0)
           (Error "connect ECONNREFUSED 10.0.0.2:443")
           eq_refl eq_refl eq_refl eq_refl).
Defined.

Lemma accepted_seed_invariants_witness :
  length (UpgradeData.characterTextures seed0) = 2%nat
  /\ UpgradeData.messages seed0 = [].
Proof.
  destruct (accepted_seed_invariants cfg0 extFound req0 runLive query0 seed0
              (or_introl eq_refl))
    as (_ & _ & _ & T & _ & _ & _ & _ & _ & M).
  split; [exact T | exact M].
Defined.

Lemma logged_needs_verified_token_witness :
  exists d,
    verifyJWTToken extFound "tok" = inr d
    /\ UpgradeData.isLogged seed0 = Js.truthyOpt (TokenData.accessToken d).
Proof.
  destruct (proj1 (logged_needs_verified_token cfg0 extFound req0 runLive query0
                     seed0 (or_introl eq_refl))
              "tok" eq_refl eq_refl)
    as (d & V & _ & Lg & _).
  exists d. split; assumption.
Defined.

Lemma join_failure_leaves_socket_open_witness :
  closeCodes (calls (opened cfg0 orunRefused (inl seed0))) = [].
Proof.
  apply (join_failure_leaves_socket_open cfg0 orunRefused seed0
           (Error "room is full") eq_refl).
Defined.

Lemma queued_messages_delivery_witness :
  calls (opened cfg0 orunJoined (inl (withMessages seed0 ["hello"; "?"; "lost"])))
  = [ HandleJoinRoom (initClient (withMessages seed0 ["hello"; "?"; "lost"]));
      EmitXMPPSettings;
      ClientSend "message" "hello";
      RoomOpen.SentryCapture (Caught (Error "ZodError"));
      RoomOpen.ConsoleError (Caught (Error "ZodError")) ].
Proof.
  apply (proj2 (queued_messages_delivery cfg0 orunJoined
                  (withMessages seed0 ["hello"; "?"; "lost"])
                  [("message", "hello")] eq_refl)
           ["hello"] "?" ["lost"] (Error "ZodError") eq_refl eq_refl eq_refl).
Defined.

Lemma accepted_socket_joins_silently_witness :
  calls (opened cfg0 orunJoined (inl seed0))
  = [HandleJoinRoom (initClient seed0); EmitXMPPSettings].
Proof.
  apply (accepted_socket_joins_silently cfg0 extFound req0 runLive query0 seed0
           orunJoined (or_introl eq_refl) eq_refl).
Defined.

(** ** The [message] handler of the [/room] socket *)

(** The [switch] makes one call, into [socketManager], and ends as that call
    ends. *)
Lemma dispatch_outcome (run : RoomMessage.Run) (m : RoomMessage.Message) :
  exists target,
    RoomMessage.dispatch run m tt
    = Outcome [target] tt
        (match RoomMessage.called run with
         | inl e => Thrown e
         | inr _ => Normal tt
         end)
    /\ socketManagerCalls [target] = [target]
    /\ (forall m', target = RoomMessage.ForwardMessageToBack m' -> m' = m).
Proof.
  assert (I : forall target,
             RoomMessage.invoke run target tt
             = Outcome [target] tt
                 (match RoomMessage.called run with
                  | inl e => Thrown e
                  | inr _ => Normal tt
                  end)).
  { intros target. unfold RoomMessage.invoke, bind, emit, call, throw, ret.
    destruct (RoomMessage.called run) as [e | []]; reflexivity. }
  destruct m; cbn [RoomMessage.dispatch];
    try (destruct queryCase as [c|];
         [destruct (String.eqb c "roomTagsQuery");
          [|destruct (String.eqb c "embeddableWebsiteQuery")]|]);
    eexists; (split; [apply I|]); (split; [reflexivity|]);
    intros m' E; try discriminate E; injection E as <-; reflexivity.
Qed.

(** X15. Every frame that decodes to a message makes exactly one call into
    [socketManager], and a frame without message or that does not decode
    makes none; a message forwarded to the back is forwarded as it was
    decoded; whatever the decoder or the call throws is reported to telemetry
    and does not leave the handler; and when nothing throws the handler
    reports nothing. *)
Theorem room_message_single_call (run : RoomMessage.Run) :
  length (socketManagerCalls (calls (RoomMessage.onMessage run tt)))
  = match RoomMessage.decoded run with
    | inr (Some _) => 1%nat
    | _ => 0%nat
    end
  /\ (forall m, In (RoomMessage.ForwardMessageToBack m)
                   (calls (RoomMessage.onMessage run tt)) ->
                RoomMessage.decoded run = inr (Some m))
  /\ (forall e, how (RoomMessage.onMessage run tt) <> Thrown e)
  /\ (forall e,
         RoomMessage.decoded run = inl e
         \/ (exists m, RoomMessage.decoded run = inr (Some m))
            /\ RoomMessage.called run = inl e ->
         In (RoomMessage.SentryCapture (Caught e))
            (calls (RoomMessage.onMessage run tt)))
  /\ ((exists m, RoomMessage.decoded run = inr (Some m)) ->
      (exists u, RoomMessage.called run = inr u) ->
      socketManagerCalls (calls (RoomMessage.onMessage run tt))
      = calls (RoomMessage.onMessage run tt)).
Proof.
  unfold RoomMessage.onMessage, tryCatch. unfold bind at 1. unfold call at 1.
  destruct (RoomMessage.decoded run) as [d | [m |]].
  - cbn. repeat split; try discriminate; auto.
    + intros m [H | [H | []]]; discriminate H.
    + intros e [E | [[m E] _]]; [injection E as <-; now left | discriminate E].
    + intros [m E]. discriminate E.
  - destruct (dispatch_outcome run m) as (target & D & S & F).
    cbn -[socketManagerCalls RoomMessage.dispatch]. rewrite D.
    assert (Sc : forall reports,
               socketManagerCalls reports = [] ->
               socketManagerCalls (target :: reports) = [target]).
    { intros reports R. change (target :: reports) with ([target] ++ reports).
      unfold socketManagerCalls in *. now rewrite filter_app, S, R. }
    destruct (RoomMessage.called run) as [c | u]; cbn -[socketManagerCalls].
    + rewrite Sc by reflexivity. split; [reflexivity|]. split; [|split; [|split]].
      * intros m' [H | [H | [H | []]]]; try discriminate H.
        now rewrite (F _ H).
      * discriminate.
      * intros e [E | [_ E]]; [discriminate E|]. injection E as <-.
        right. now left.
      * intros _ [u E]. discriminate E.
    + rewrite Sc by reflexivity.
      split; [reflexivity|]. split; [|split; [|split]].
      * intros m' [H | []]. now rewrite (F _ H).
      * discriminate.
      * intros e [E | [_ E]]; discriminate E.
      * reflexivity.
  - cbn. repeat split; try discriminate; auto.
    + intros m [H | []]. discriminate H.
    + intros e [E | [[m E] _]]; discriminate E.
    + intros [m E]. discriminate E.
Qed.

Lemma room_message_single_call_witness :
  In (RoomMessage.SentryCapture (Caught (Error "back is down")))
     (calls (RoomMessage.onMessage
               {| RoomMessage.decoded := inr (Some (RoomMessage.pingMessage "p"));
                  RoomMessage.called := inl (Error "back is down") |} tt)).
Proof.
  apply (proj1 (proj2 (proj2 (proj2
           (room_message_single_call
              {| RoomMessage.decoded := inr (Some (RoomMessage.pingMessage "p"));
                 RoomMessage.called := inl (Error "back is down") |}))))).
  right. split; [eexists|]; reflexivity.
Defined.

(** ** JavaScript [Map] *)

Section MapLaws.

Context {K V : Type}.
Variable eqb : K -> K -> bool.
Hypothesis eqb_spec : forall a b, eqb a b = true <-> a = b.

Lemma eqb_same (k : K) : eqb k k = true.
Proof. now apply eqb_spec. Qed.

Lemma eqb_other (a b : K) : a <> b -> eqb a b = false.
Proof.
  intros N. destruct (eqb a b) eqn:E; [|reflexivity].
  apply eqb_spec in E. contradiction.
Qed.

Lemma get_set_same (m : list (K * V)) (k : K) (v : V) :
  JsMap.get eqb (JsMap.set eqb m k v) k = Some v.
Proof.
  induction m as [|[k' v'] m IH]; simpl.
  - now rewrite eqb_same.
  - destruct (eqb k' k) eqn:E; simpl; rewrite E; [reflexivity | exact IH].
Qed.

Lemma get_set_other (m : list (K * V)) (k k' : K) (v : V) :
  k' <> k ->
  JsMap.get eqb (JsMap.set eqb m k v) k' = JsMap.get eqb m k'.
Proof.
  intros N. induction m as [|[k0 v0] m IH]; simpl.
  - now rewrite (eqb_other k k') by congruence.
  - destruct (eqb k0 k) eqn:E; simpl.
    + apply eqb_spec in E. subst k0.
      now rewrite (eqb_other k k') by congruence.
    + now rewrite IH.
Qed.

Lemma get_delete_same (m : list (K * V)) (k : K) :
  JsMap.get eqb (JsMap.delete eqb m k) k = None.
Proof.
  unfold JsMap.delete. induction m as [|[k' v'] m IH]; simpl; [reflexivity|].
  destruct (eqb k' k) eqn:E; simpl; [exact IH | now rewrite E].
Qed.

Lemma get_delete_other (m : list (K * V)) (k k' : K) :
  k' <> k ->
  JsMap.get eqb (JsMap.delete eqb m k) k' = JsMap.get eqb m k'.
Proof.
  intros N. unfold JsMap.delete.
  induction m as [|[k0 v0] m IH]; simpl; [reflexivity|].
  destruct (eqb k0 k) eqn:E; simpl.
  - apply eqb_spec in E. subst k0. now rewrite (eqb_other k k') by congruence.
  - now rewrite IH.
Qed.

Lemma get_In (m : list (K * V)) (k : K) (v : V) :
  JsMap.get eqb m k = Some v -> In (k, v) m.
Proof.
  induction m as [|[k' v'] m IH]; simpl; [discriminate|].
  destruct (eqb k' k) eqn:E.
  - apply eqb_spec in E. intros [= <-]. left. now subst.
  - intros H. right. now apply IH.
Qed.

Lemma Forall_set (P : K * V -> Prop) (m : list (K * V)) (k : K) (v : V) :
  Forall P m -> (forall k', P (k', v)) -> Forall P (JsMap.set eqb m k v).
Proof.
  intros H Pv. induction H as [|[k' v'] m Px Hm IH]; simpl.
  - auto.
  - destruct (eqb k' k); constructor; auto.
Qed.

Lemma Forall_delete (P : K * V -> Prop) (m : list (K * V)) (k : K) :
  Forall P m -> Forall P (JsMap.delete eqb m k).
Proof.
  intros H. unfold JsMap.delete. apply Forall_forall. intros x Hx.
  apply filter_In in Hx. rewrite Forall_forall in H. now apply H.
Qed.

End MapLaws.

(** ** The area streams of the scripting API *)

Lemma string_eqb_spec (a b : string) : String.eqb a b = true <-> a = b.
Proof. apply String.eqb_eq. Qed.

Lemma nat_eqb_spec (a b : nat) : Nat.eqb a b = true <-> a = b.
Proof. apply Nat.eqb_eq. Qed.

(** [onEnter], [onLeave] and [delete], in full. *)
Lemma onEnter_outcome (s : AreaCommands.Streams) (name : string) :
  AreaCommands.onEnter name s
  = match JsMap.get String.eqb (AreaCommands.enterAreaStreams s) name with
    | Some subject => Outcome [] s (Normal subject)
    | None =>
        Outcome []
          {| AreaCommands.enterAreaStreams :=
               JsMap.set String.eqb (AreaCommands.enterAreaStreams s) name
                         (AreaCommands.subjects s);
             AreaCommands.leaveAreaStreams := AreaCommands.leaveAreaStreams s;
             AreaCommands.subjects := S (AreaCommands.subjects s) |}
          (Normal (AreaCommands.subjects s))
    end.
Proof.
  unfold AreaCommands.onEnter, bind, get, put, ret. cbn.
  now destruct (JsMap.get _ _ _).
Qed.

Lemma onLeave_outcome (s : AreaCommands.Streams) (name : string) :
  AreaCommands.onLeave name s
  = match JsMap.get String.eqb (AreaCommands.leaveAreaStreams s) name with
    | Some subject => Outcome [] s (Normal subject)
    | None =>
        Outcome []
          {| AreaCommands.enterAreaStreams := AreaCommands.enterAreaStreams s;
             AreaCommands.leaveAreaStreams :=
               JsMap.set String.eqb (AreaCommands.leaveAreaStreams s) name
                         (AreaCommands.subjects s);
             AreaCommands.subjects := S (AreaCommands.subjects s) |}
          (Normal (AreaCommands.subjects s))
    end.
Proof.
  unfold AreaCommands.onLeave, bind, get, put, ret. cbn.
  now destruct (JsMap.get _ _ _).
Qed.

Lemma delete_outcome (answer : Exception + unit) (s : AreaCommands.Streams)
      (name : string) :
  AreaCommands.delete answer name s
  = match answer with
    | inl e =>
        Outcome [AreaCommands.QueryWorkadventure "deleteArea" name] s (Thrown e)
    | inr _ =>
        Outcome [AreaCommands.QueryWorkadventure "deleteArea" name]
          {| AreaCommands.enterAreaStreams :=
               JsMap.delete String.eqb (AreaCommands.enterAreaStreams s) name;
             AreaCommands.leaveAreaStreams :=
               JsMap.delete String.eqb (AreaCommands.leaveAreaStreams s) name;
             AreaCommands.subjects := AreaCommands.subjects s |}
          (Normal tt)
    end.
Proof.
  unfold AreaCommands.delete, bind, call, emit, get, put, throw, ret.
  destruct answer as [e | []]; reflexivity.
Qed.

(** X16. [onEnter] gets or creates: it makes no call, its answer is the
    subject the map then holds for the area, asking again gives the same
    subject and changes nothing, and it touches neither the stream of another
    area nor any leave stream. [onLeave] does the same on the leave
    streams. *)
Theorem onEnter_gets_or_creates (s : AreaCommands.Streams) (areaName : string) :
  (exists subject,
      let o := AreaCommands.onEnter areaName s in
      how o = Normal subject
      /\ calls o = []
      /\ JsMap.get String.eqb (AreaCommands.enterAreaStreams (final o)) areaName
         = Some subject
      /\ AreaCommands.onEnter areaName (final o) = Outcome [] (final o) (Normal subject)
      /\ AreaCommands.leaveAreaStreams (final o) = AreaCommands.leaveAreaStreams s
      /\ forall other, other <> areaName ->
           JsMap.get String.eqb (AreaCommands.enterAreaStreams (final o)) other
           = JsMap.get String.eqb (AreaCommands.enterAreaStreams s) other)
  /\ (exists subject,
         let o := AreaCommands.onLeave areaName s in
         how o = Normal subject
         /\ calls o = []
         /\ JsMap.get String.eqb (AreaCommands.leaveAreaStreams (final o)) areaName
            = Some subject
         /\ AreaCommands.onLeave areaName (final o) = Outcome [] (final o) (Normal subject)
         /\ AreaCommands.enterAreaStreams (final o) = AreaCommands.enterAreaStreams s
         /\ forall other, other <> areaName ->
              JsMap.get String.eqb (AreaCommands.leaveAreaStreams (final o)) other
              = JsMap.get String.eqb (AreaCommands.leaveAreaStreams s) other).
Proof.
  rewrite onEnter_outcome, onLeave_outcome. split.
  - destruct (JsMap.get String.eqb (AreaCommands.enterAreaStreams s) areaName)
      as [subject|] eqn:G.
    + exists subject. cbv zeta. cbn [how calls final].
      rewrite onEnter_outcome, G. repeat split; auto.
    + exists (AreaCommands.subjects s). cbv zeta.
      cbn [how calls final AreaCommands.enterAreaStreams
           AreaCommands.leaveAreaStreams].
      rewrite onEnter_outcome.
      cbn [AreaCommands.enterAreaStreams AreaCommands.leaveAreaStreams].
      rewrite (get_set_same String.eqb string_eqb_spec).
      repeat split; auto.
      intros other N. now apply (get_set_other String.eqb string_eqb_spec).
  - destruct (JsMap.get String.eqb (AreaCommands.leaveAreaStreams s) areaName)
      as [subject|] eqn:G.
    + exists subject. cbv zeta. cbn [how calls final].
      rewrite onLeave_outcome, G. repeat split; auto.
    + exists (AreaCommands.subjects s). cbv zeta.
      cbn [how calls final AreaCommands.enterAreaStreams
           AreaCommands.leaveAreaStreams].
      rewrite onLeave_outcome.
      cbn [AreaCommands.enterAreaStreams AreaCommands.leaveAreaStreams].
      rewrite (get_set_same String.eqb string_eqb_spec).
      repeat split; auto.
      intros other N. now apply (get_set_other String.eqb string_eqb_spec).
Qed.

(** The two callbacks, in full. *)
Lemma areaEvent_outcome (s : AreaCommands.Streams) (name : string) :
  AreaCommands.enterAreaEvent name s
  = Outcome (match JsMap.get String.eqb (AreaCommands.enterAreaStreams s) name with
             | Some subject => [AreaCommands.Next subject]
             | None => []
             end) s (Normal tt)
  /\ AreaCommands.leaveAreaEvent name s
     = Outcome (match JsMap.get String.eqb (AreaCommands.leaveAreaStreams s) name with
                | Some subject => [AreaCommands.Next subject]
                | None => []
                end) s (Normal tt).
Proof.
  unfold AreaCommands.enterAreaEvent, AreaCommands.leaveAreaEvent, bind, get. cbn.
  split; now destruct (JsMap.get _ _ _).
Qed.

(** X17. An ["enterAreaEvent"] reaches the listener of its area and no
    other: after [onEnter] answered a subject for an area, the event of that
    area calls [next()] once, on that subject; the event of an area without
    stream calls nothing; and an event never changes the maps. The same
    holds for ["leaveAreaEvent"] and [onLeave]. *)
Theorem area_event_reaches_listener (s : AreaCommands.Streams) (name : string) :
  (forall subject,
      how (AreaCommands.onEnter name s) = Normal subject ->
      AreaCommands.enterAreaEvent name (final (AreaCommands.onEnter name s))
      = Outcome [AreaCommands.Next subject] (final (AreaCommands.onEnter name s))
                (Normal tt))
  /\ (forall subject,
         how (AreaCommands.onLeave name s) = Normal subject ->
         AreaCommands.leaveAreaEvent name (final (AreaCommands.onLeave name s))
         = Outcome [AreaCommands.Next subject] (final (AreaCommands.onLeave name s))
                   (Normal tt))
  /\ (JsMap.get String.eqb (AreaCommands.enterAreaStreams s) name = None ->
      AreaCommands.enterAreaEvent name s = Outcome [] s (Normal tt))
  /\ (JsMap.get String.eqb (AreaCommands.leaveAreaStreams s) name = None ->
      AreaCommands.leaveAreaEvent name s = Outcome [] s (Normal tt))
  /\ final (AreaCommands.enterAreaEvent name s) = s
  /\ final (AreaCommands.leaveAreaEvent name s) = s.
Proof.
  rewrite onEnter_outcome, onLeave_outcome.
  split; [|split; [|split; [|split; [|split]]]].
  - intros subject.
    destruct (JsMap.get String.eqb (AreaCommands.enterAreaStreams s) name)
      as [found|] eqn:G; cbn [how final]; intros [= <-];
      rewrite (proj1 (areaEvent_outcome _ name)); cbn.
    + now rewrite G.
    + now rewrite (get_set_same String.eqb string_eqb_spec).
  - intros subject.
    destruct (JsMap.get String.eqb (AreaCommands.leaveAreaStreams s) name)
      as [found|] eqn:G; cbn [how final]; intros [= <-];
      rewrite (proj2 (areaEvent_outcome _ name)); cbn.
    + now rewrite G.
    + now rewrite (get_set_same String.eqb string_eqb_spec).
  - intros G. rewrite (proj1 (areaEvent_outcome _ name)), G. reflexivity.
  - intros G. rewrite (proj2 (areaEvent_outcome _ name)), G. reflexivity.
  - now rewrite (proj1 (areaEvent_outcome _ name)).
  - now rewrite (proj2 (areaEvent_outcome _ name)).
Qed.

(** X18. [delete] asks the game to delete the area and, once the game has
    answered, forgets both streams of that area: its enter and leave events
    then reach nobody, while the streams of every other area stay. If the
    query fails, the failure is passed on and both streams are kept. *)
Theorem delete_forgets_both_streams (s : AreaCommands.Streams) (name : string) :
  (calls (AreaCommands.delete (inr tt) name s)
   = [AreaCommands.QueryWorkadventure "deleteArea" name]
   /\ how (AreaCommands.delete (inr tt) name s) = Normal tt
   /\ calls (AreaCommands.enterAreaEvent name
               (final (AreaCommands.delete (inr tt) name s))) = []
   /\ calls (AreaCommands.leaveAreaEvent name
               (final (AreaCommands.delete (inr tt) name s))) = []
   /\ forall other, other <> name ->
        AreaCommands.enterAreaEvent other (final (AreaCommands.delete (inr tt) name s))
        = Outcome (calls (AreaCommands.enterAreaEvent other s))
                  (final (AreaCommands.delete (inr tt) name s)) (Normal tt)
        /\ AreaCommands.leaveAreaEvent other
             (final (AreaCommands.delete (inr tt) name s))
           = Outcome (calls (AreaCommands.leaveAreaEvent other s))
                     (final (AreaCommands.delete (inr tt) name s)) (Normal tt))
  /\ forall e,
       AreaCommands.delete (inl e) name s
       = Outcome [AreaCommands.QueryWorkadventure "deleteArea" name] s (Thrown e).
Proof.
  split; [|intros e; apply delete_outcome].
  rewrite delete_outcome. cbn [calls how final].
  split; [reflexivity|]. split; [reflexivity|].
  split; [|split].
  - rewrite (proj1 (areaEvent_outcome _ name)). cbn.
    now rewrite (get_delete_same String.eqb).
  - rewrite (proj2 (areaEvent_outcome _ name)). cbn.
    now rewrite (get_delete_same String.eqb).
  - intros other N.
    rewrite (proj1 (areaEvent_outcome _ other)), (proj2 (areaEvent_outcome _ other)),
      (proj1 (areaEvent_outcome s other)), (proj2 (areaEvent_outcome s other)).
    cbn. rewrite !(get_delete_other String.eqb string_eqb_spec) by exact N.
    split; reflexivity.
Qed.

(** A subject made by [onEnter] is counted. *)
Lemma allocated_onEnter (s : AreaCommands.Streams) (name : string) :
  allocated s -> allocated (final (AreaCommands.onEnter name s)).
Proof.
  unfold allocated. intros A. rewrite onEnter_outcome.
  destruct (JsMap.get _ _ _); cbn; [exact A|].
  apply Forall_app in A. destruct A as [Ae Al].
  apply Forall_app. split.
  - apply Forall_set; [|intros; cbn; lia].
    revert Ae. apply Forall_impl. intros entry H. lia.
  - revert Al. apply Forall_impl. intros entry H. lia.
Qed.

(** X19. The two maps only ever hold subjects that [new Subject()] made
    earlier: this holds when the module is loaded and is kept by [onEnter],
    [onLeave] and [delete]. So the subject [onEnter] or [onLeave] makes for
    an area that has no stream is a new one: no stream of any area, enter or
    leave, already has it. *)
Theorem subjects_are_fresh (s : AreaCommands.Streams) (name : string)
        (answer : Exception + unit) :
  allocated AreaCommands.loaded
  /\ (allocated s ->
      allocated (final (AreaCommands.onEnter name s))
      /\ allocated (final (AreaCommands.onLeave name s))
      /\ allocated (final (AreaCommands.delete answer name s))
      /\ (JsMap.get String.eqb (AreaCommands.enterAreaStreams s) name = None ->
          forall subject area,
            returned (AreaCommands.onEnter name s) = Some subject ->
            ~ In (area, subject)
                 (AreaCommands.enterAreaStreams s ++ AreaCommands.leaveAreaStreams s))
      /\ (JsMap.get String.eqb (AreaCommands.leaveAreaStreams s) name = None ->
          forall subject area,
            returned (AreaCommands.onLeave name s) = Some subject ->
            ~ In (area, subject)
                 (AreaCommands.enterAreaStreams s ++ AreaCommands.leaveAreaStreams s))).
Proof.
  split; [constructor|].
  intros A. split; [now apply allocated_onEnter|].
  unfold allocated in *.
  rewrite onEnter_outcome, onLeave_outcome, delete_outcome.
  split; [|split; [|split]].
  - destruct (JsMap.get _ _ _); cbn; [exact A|].
    apply Forall_app in A. destruct A as [Ae Al].
    apply Forall_app. split.
    + revert Ae. apply Forall_impl. intros entry H. lia.
    + apply Forall_set; [|intros; cbn; lia].
      revert Al. apply Forall_impl. intros entry H. lia.
  - destruct answer as [e | u]; cbn; [exact A|].
    apply Forall_app in A. destruct A as [Ae Al].
    apply Forall_app. split; now apply Forall_delete.
  - intros G subject area. rewrite G. unfold returned. cbn. intros [= <-] H.
    rewrite Forall_forall in A. specialize (A _ H). cbn in A. lia.
  - intros G subject area. rewrite G. unfold returned. cbn. intros [= <-] H.
    rewrite Forall_forall in A. specialize (A _ H). cbn in A. lia.
Qed.

(** X20. A deleted area starts afresh: the subject [onEnter] answers for an
    area after its deletion is not the one it answered before, and it is the
    new one that the enter events of the area then reach; who subscribed to
    the old subject hears nothing more. *)
Theorem deleted_area_gets_new_subject
        (s : AreaCommands.Streams) (name : string)
        (old new : AreaCommands.Subject) :
  allocated s ->
  returned (AreaCommands.onEnter name s) = Some old ->
  returned (AreaCommands.onEnter name
              (final (AreaCommands.delete (inr tt) name
                        (final (AreaCommands.onEnter name s))))) = Some new ->
  new <> old
  /\ calls (AreaCommands.enterAreaEvent name
              (final (AreaCommands.onEnter name
                        (final (AreaCommands.delete (inr tt) name
                                  (final (AreaCommands.onEnter name s)))))))
     = [AreaCommands.Next new].
Proof.
  intros A O N.
  pose proof (allocated_onEnter s name A) as A1.
  set (s1 := final (AreaCommands.onEnter name s)) in *.
  assert (G : JsMap.get String.eqb (AreaCommands.enterAreaStreams s1) name = Some old).
  { subst s1. unfold returned in O. rewrite onEnter_outcome in O |- *.
    destruct (JsMap.get String.eqb (AreaCommands.enterAreaStreams s) name)
      as [found|] eqn:G; cbn in O |- *; injection O as <-.
    - exact G.
    - apply (get_set_same String.eqb string_eqb_spec). }
  assert (Lt : (old < AreaCommands.subjects s1)%nat).
  { apply get_In in G; [|exact string_eqb_spec].
    unfold allocated in A1. rewrite Forall_forall in A1.
    apply (A1 (name, old)). apply in_or_app. now left. }
  rewrite delete_outcome in N |- *. cbn [final] in N |- *.
  rewrite onEnter_outcome in N |- *. cbn [AreaCommands.enterAreaStreams] in N |- *.
  rewrite (get_delete_same String.eqb) in N |- *.
  unfold returned in N. cbn in N. injection N as <-.
  split; [lia|].
  cbn [final]. rewrite (proj1 (areaEvent_outcome _ name)). cbn.
  now rewrite (get_set_same String.eqb string_eqb_spec).
Qed.

(** ** The [message] listener of the scripting API *)

(** The listener on a message of the parent window, by what the validators
    make of it. *)
Lemma iframe_listener_outcome (registered : list string)
      (message : IframeApi.MessageEvent) (promises : list (nat * IframeApi.Resolver)) :
  IframeApi.fromParent message = true ->
  IframeApi.onMessage registered message promises
  = match IframeApi.asErrorAnswer (IframeApi.data message) with
    | Some (queryId, payloadError) =>
        match JsMap.get Nat.eqb promises queryId with
        | Some resolver =>
            Outcome [IframeApi.Reject resolver payloadError]
                    (JsMap.delete Nat.eqb promises queryId) (Normal tt)
        | None =>
            Outcome [] promises
              (Thrown (Error "In Iframe API, got an error answer for a question that we have no track of."))
        end
    | None =>
        match IframeApi.asAnswer (IframeApi.data message) with
        | Some (queryId, payloadData) =>
            match JsMap.get Nat.eqb promises queryId with
            | Some resolver =>
                Outcome [IframeApi.Resolve resolver payloadData]
                        (JsMap.delete Nat.eqb promises queryId) (Normal tt)
            | None =>
                Outcome [] promises
                  (Thrown (Error "In Iframe API, got an answer for a question that we have no track of."))
            end
        | None =>
            match IframeApi.asResponse (IframeApi.data message) with
            | Some (type, payloadData) =>
                Outcome (if Js.includes registered type
                         then [IframeApi.Callback type payloadData] else [])
                        promises (Normal tt)
            | None => Outcome [] promises (Normal tt)
            end
        end
    end.
Proof.
  intros P. unfold IframeApi.onMessage. unfold bind at 1. rewrite P. cbn.
  destruct (IframeApi.asErrorAnswer _) as [[queryId payloadError]|].
  - unfold bind, get. cbn.
    destruct (JsMap.get Nat.eqb promises queryId); reflexivity.
  - destruct (IframeApi.asAnswer _) as [[queryId payloadData]|].
    + unfold bind, get. cbn.
      destruct (JsMap.get Nat.eqb promises queryId); reflexivity.
    + destruct (IframeApi.asResponse _) as [[type payloadData]|]; [|reflexivity].
      unfold when. destruct (Js.includes registered type); reflexivity.
Qed.

(** X21. An answer of the game settles its query once: the answer to a
    pending query resolves that query's promise with the data of the answer,
    takes the query out of [answerPromises] and leaves every other pending
    query as it was; the same answer arriving again finds no query, settles
    nothing, changes nothing and makes the listener throw. *)
Theorem answer_settles_its_query_once
        (registered : list string) (message : IframeApi.MessageEvent)
        (promises : list (nat * IframeApi.Resolver))
        (queryId : nat) (payloadData : string) (resolver : IframeApi.Resolver) :
  IframeApi.fromParent message = true ->
  IframeApi.asErrorAnswer (IframeApi.data message) = None ->
  IframeApi.asAnswer (IframeApi.data message) = Some (queryId, payloadData) ->
  JsMap.get Nat.eqb promises queryId = Some resolver ->
  let o := IframeApi.onMessage registered message promises in
  calls o = [IframeApi.Resolve resolver payloadData]
  /\ how o = Normal tt
  /\ JsMap.get Nat.eqb (final o) queryId = None
  /\ (forall other, other <> queryId ->
                    JsMap.get Nat.eqb (final o) other = JsMap.get Nat.eqb promises other)
  /\ IframeApi.onMessage registered message (final o)
     = Outcome [] (final o)
         (Thrown (Error "In Iframe API, got an answer for a question that we have no track of.")).
Proof.
  intros P E A G o. subst o.
  rewrite !(iframe_listener_outcome registered message _ P), E, A, G. cbn.
  rewrite (get_delete_same Nat.eqb).
  repeat split.
  intros other N. now apply (get_delete_other Nat.eqb nat_eqb_spec).
Qed.

(** X22. An error answer comes first: whenever the message of the parent
    window passes the schema of error answers, the listener treats it as one,
    whatever else it would also pass for. For a pending query it rejects that
    query's promise with the error and forgets the query, leaving the others;
    for a query it does not know it settles nothing and throws. *)
Theorem error_answer_rejects_its_query
        (registered : list string) (message : IframeApi.MessageEvent)
        (promises : list (nat * IframeApi.Resolver))
        (queryId : nat) (payloadError : string) :
  IframeApi.fromParent message = true ->
  IframeApi.asErrorAnswer (IframeApi.data message) = Some (queryId, payloadError) ->
  let o := IframeApi.onMessage registered message promises in
  (forall resolver,
      JsMap.get Nat.eqb promises queryId = Some resolver ->
      calls o = [IframeApi.Reject resolver payloadError]
      /\ how o = Normal tt
      /\ JsMap.get Nat.eqb (final o) queryId = None
      /\ forall other, other <> queryId ->
           JsMap.get Nat.eqb (final o) other = JsMap.get Nat.eqb promises other)
  /\ (JsMap.get Nat.eqb promises queryId = None ->
      calls o = [] /\ final o = promises
      /\ how o = Thrown (Error "In Iframe API, got an error answer for a question that we have no track of.")).
Proof.
  intros P E o. subst o.
  rewrite (iframe_listener_outcome registered message _ P), E. split.
  - intros resolver G. rewrite G. cbn.
    rewrite (get_delete_same Nat.eqb). repeat split.
    intros other N. now apply (get_delete_other Nat.eqb nat_eqb_spec).
  - intros G. rewrite G. cbn. repeat split.
Qed.

(** X23. The listener only listens to the parent window and only settles
    queries on answers: a message of any other source is skipped whatever it
    holds; and a message of the parent that is an event, neither answer nor
    error answer, runs the callback registered for its type, once and with
    the data of the event, or nothing when no callback is registered, and
    leaves every pending query pending. *)
Theorem events_and_foreign_messages
        (registered : list string) (message : IframeApi.MessageEvent)
        (promises : list (nat * IframeApi.Resolver)) :
  (IframeApi.fromParent message = false ->
   IframeApi.onMessage registered message promises = Outcome [] promises Returned)
  /\ (IframeApi.fromParent message = true ->
      IframeApi.asErrorAnswer (IframeApi.data message) = None ->
      IframeApi.asAnswer (IframeApi.data message) = None ->
      final (IframeApi.onMessage registered message promises) = promises
      /\ how (IframeApi.onMessage registered message promises) = Normal tt
      /\ (forall type payloadData,
             IframeApi.asResponse (IframeApi.data message) = Some (type, payloadData) ->
             (In type registered ->
              calls (IframeApi.onMessage registered message promises)
              = [IframeApi.Callback type payloadData])
             /\ (~ In type registered ->
                 calls (IframeApi.onMessage registered message promises) = []))
      /\ (IframeApi.asResponse (IframeApi.data message) = None ->
          calls (IframeApi.onMessage registered message promises) = [])).
Proof.
  split.
  - intros P. unfold IframeApi.onMessage. unfold bind at 1. rewrite P. reflexivity.
  - intros P E A. rewrite (iframe_listener_outcome registered message _ P), E, A.
    destruct (IframeApi.asResponse _) as [[type payloadData]|]; cbn.
    + split; [reflexivity|]. split; [reflexivity|]. split; [|discriminate].
      intros type' payload' [= <- <-]. split.
      * intros I. apply includes_In in I. now rewrite I.
      * intros NI. destruct (Js.includes registered type) eqn:I; [|reflexivity].
        apply includes_In in I. contradiction.
    + split; [reflexivity|]. split; [reflexivity|]. split; [|reflexivity].
      intros type payloadData H. discriminate H.
Qed.

(** ** Runs of the scripting API *)

Lemma onEnter_gets_or_creates_witness :
  AreaCommands.onEnter "kitchen"
    (final (AreaCommands.onEnter "kitchen" AreaCommands.loaded))
  = Outcome [] (final (AreaCommands.onEnter "kitchen" AreaCommands.loaded))
            (Normal 0%nat).
Proof.
  destruct (proj1 (onEnter_gets_or_creates AreaCommands.loaded "kitchen"))
    as (subject & H & _ & _ & I & _).
  cbv zeta in H, I. injection H as <-. exact I.
Defined.

Lemma area_event_reaches_listener_witness :
  AreaCommands.enterAreaEvent "kitchen"
    (final (AreaCommands.onEnter "kitchen" AreaCommands.loaded))
  = Outcome [AreaCommands.Next 0]
            (final (AreaCommands.onEnter "kitchen" AreaCommands.loaded)) (Normal tt).
Proof.
  apply (proj1 (area_event_reaches_listener AreaCommands.loaded "kitchen") 0%nat).
  reflexivity.
Defined.

Lemma delete_forgets_both_streams_witness :
  AreaCommands.leaveAreaEvent "hall"
    (final (AreaCommands.delete (inr tt) "kitchen"
              (final (AreaCommands.onLeave "hall" AreaCommands.loaded))))
  = Outcome [AreaCommands.Next 0]
      (final (AreaCommands.delete (inr tt) "kitchen"
                (final (AreaCommands.onLeave "hall" AreaCommands.loaded))))
      (Normal tt).
Proof.
  apply (proj2 (proj2 (proj2 (proj2 (proj2 (proj1
           (delete_forgets_both_streams
              (final (AreaCommands.onLeave "hall" AreaCommands.loaded))
              "kitchen"))))) "hall" ltac:(discriminate))).
Defined.

Lemma subjects_are_fresh_witness :
  allocated (final (AreaCommands.onEnter "kitchen" AreaCommands.loaded)).
Proof.
  apply (proj1 (proj2 (subjects_are_fresh AreaCommands.loaded "kitchen" (inr tt))
                  (proj1 (subjects_are_fresh AreaCommands.loaded "kitchen" (inr tt))))).
Defined.

Lemma deleted_area_gets_new_subject_witness :
  (1 <> 0)%nat
  /\ calls (AreaCommands.enterAreaEvent "kitchen"
              (final (AreaCommands.onEnter "kitchen"
                        (final (AreaCommands.delete (inr tt) "kitchen"
                                  (final (AreaCommands.onEnter "kitchen"
                                            AreaCommands.loaded)))))))
     = [AreaCommands.Next 1].
Proof.
  apply (deleted_area_gets_new_subject AreaCommands.loaded "kitchen" 0%nat 1%nat).
  - constructor.
  - reflexivity.
  - reflexivity.
Defined.

Lemma answer_settles_its_query_once_witness :
  calls (IframeApi.onMessage ["enterAreaEvent"] answer7 pending0)
  = [IframeApi.Resolve 70 "{x:1}"]
  /\ JsMap.get Nat.eqb
       (final (IframeApi.onMessage ["enterAreaEvent"] answer7 pending0)) 8%nat
     = Some 80%nat.
Proof.
  destruct (answer_settles_its_query_once ["enterAreaEvent"] answer7 pending0
              7%nat "{x:1}" 70%nat eq_refl eq_refl eq_refl eq_refl)
    as (C & _ & _ & O & _).
  split; [exact C|]. rewrite (O 8%nat); [reflexivity | discriminate].
Defined.

Lemma error_answer_rejects_its_query_witness :
  calls (IframeApi.onMessage ["enterAreaEvent"] error8 pending0)
  = [IframeApi.Reject 80 "Area not found"].
Proof.
  apply (proj1 (error_answer_rejects_its_query ["enterAreaEvent"] error8 pending0
                  8%nat "Area not found" eq_refl eq_refl) 80%nat eq_refl).
Defined.

Lemma events_and_foreign_messages_witness :
  calls (IframeApi.onMessage ["enterAreaEvent"] enterKitchen pending0)
  = [IframeApi.Callback "enterAreaEvent" "kitchen"]
  /\ calls (IframeApi.onMessage ["leaveAreaEvent"] enterKitchen pending0) = [].
Proof.
  split.
  - apply (proj1 (proj1 (proj2 (proj2
             (proj2 (events_and_foreign_messages ["enterAreaEvent"] enterKitchen
                       pending0) eq_refl eq_refl eq_refl)))
             "enterAreaEvent" "kitchen" eq_refl)).
    left. reflexivity.
  - apply (proj2 (proj1 (proj2 (proj2
             (proj2 (events_and_foreign_messages ["leaveAreaEvent"] enterKitchen
                       pending0) eq_refl eq_refl eq_refl)))
             "enterAreaEvent" "kitchen" eq_refl)).
    intros [E | []]. discriminate E.
Defined.
